(** * map-app: the view-state derivation pipeline of [src/App.js]

    A shallow embedding of the React component [App] (and of the earlier
    revision of the same component, kept in [Module Part000]): the year
    filter, the owner and farm aggregations, the search handler, the
    accordion handlers and the per-feature style callback.

    JavaScript values are modelled at the types the data set gives them:
    the optional text fields [name], [owner] and [date] of a feature are
    [option string] ([None] for a missing or [null] field), GeoJSON
    coordinates and the numbers derived from them are binary64 numbers (the
    standard library's [spec_float] with its IEEE 754 operations), years
    and counts are integers.  What the component takes from its host (the string
    and date built-ins of the JavaScript engine and the Leaflet call
    [L.geoJSON(f).getBounds()]) is an interface, [Host]. *)

From Stdlib Require Import List String Ascii Bool ZArith QArith Lia.
From Stdlib Require Import Floats.SpecFloat.
From Stdlib Require Import Sorting.Sorted Sorting.Permutation.
From Stdlib Require Import Structures.OrderedTypeEx.
From Stdlib Require Import Numbers.DecimalString.
Import ListNotations.

Local Open Scope string_scope.
Local Open Scope Z_scope.

(** ** Data model *)

(** A JavaScript number: a binary64 value. *)
Definition Number : Type := spec_float.

(** [x - y] on numbers. *)
Definition Number_sub : Number -> Number -> Number := SFsub 53 1024.

(** A GeoJSON position, [[longitude, latitude]]. *)
Definition Position : Type := (Number * Number)%type.

Inductive Geometry : Type :=
| Polygon (coordinates : list (list Position))
| MultiPolygon (coordinates : list (list (list Position))).

(** [feature.properties]: every field is optional. *)
Record Properties : Type := mkProperties {
  name : option string;
  owner : option string;
  date : option string
}.

(** [properties] itself may be missing ([feature.properties?....]). *)
Record Feature : Type := mkFeature {
  geometry : Geometry;
  properties : option Properties
}.

(** [locations.json] and every collection derived from it.  [features] is
    [None] when the property is missing (or otherwise falsy): the guard
    [if (!locations.features)] of the source reads it. *)
Record FeatureCollection : Type := mkCollection {
  type : string;
  features : option (list Feature)
}.

(** A Leaflet [LatLngBounds], through its four accessors. *)
Record LatLngBounds : Type := mkBounds {
  getWest : Number;
  getSouth : Number;
  getEast : Number;
  getNorth : Number
}.

(** ** The host interface *)

Class Host : Type := {
  (** [String.prototype.toLowerCase] *)
  toLowerCase : string -> string;
  (** [String.prototype.localeCompare]: negative, zero or positive *)
  localeCompare : string -> string -> Z;
  (** [new Date(s).getFullYear()], [None] standing for [NaN] *)
  Date_getFullYear : string -> option Z;
  (** the text a built-in function converts to, by the function's name
      (its white space is the engine's choice) *)
  nativeFunction : string -> string;
  (** [L.geoJSON(feature).getBounds()] *)
  getBounds : Feature -> LatLngBounds
}.

(** What ECMAScript asks of a comparator handed to [Array.prototype.sort]
    (a consistent comparator); [localeCompare] is one. *)
Definition consistent (cmp : string -> string -> Z) : Prop :=
  (forall a b, 0 < cmp a b -> cmp b a < 0) /\
  (forall a b c, cmp a b <= 0 -> cmp b c <= 0 -> cmp a c <= 0).

(** ** Exceptions *)

(** The only exception the component can raise is the [TypeError] of a
    method call on [undefined]. *)
Inductive Result (A : Type) : Type :=
| Ok (a : A)
| TypeError.
Arguments Ok {A} a.
Arguments TypeError {A}.

Definition bind {A B : Type} (r : Result A) (k : A -> Result B) : Result B :=
  match r with
  | Ok a => k a
  | TypeError => TypeError
  end.

Notation "x <- r ;; k" := (bind r (fun x => k))
  (at level 61, r at next level, right associativity).

(** [collection.features.forEach(...)], [.map(...)]: the array, or the
    [TypeError] of calling a method on [undefined]. *)
Definition features_array (c : FeatureCollection) : Result (list Feature) :=
  match features c with
  | Some fs => Ok fs
  | None => TypeError
  end.

(** ** JavaScript truthiness and optional chaining *)

(** A text field is truthy when it is present and not the empty string. *)
Definition truthy (v : option string) : bool :=
  match v with
  | Some s => negb (s =? "")%string
  | None => false
  end.

(** [feature.properties?.name] and its siblings. *)
Definition prop (field : Properties -> option string) (feature : Feature)
  : option string :=
  match properties feature with
  | Some p => field p
  | None => None
  end.

(** ** [filteredLocations] ([src/App.js], lines 29-43) *)

Section Filter.
Context `{Host}.

(** [dateStr ? new Date(dateStr).getFullYear() : NaN] *)
Definition yearParsed (feature : Feature) : option Z :=
  let dateStr := prop date feature in
  if truthy dateStr then
    match dateStr with
    | Some s => Date_getFullYear s
    | None => None
    end
  else None.

(** The callback of [locations.features.filter]. *)
Definition keepFeature (year : Z) (yearFilterEnabled : bool)
    (feature : Feature) : bool :=
  if negb yearFilterEnabled then true
  else
    match yearParsed feature with
    | Some y => y <=? year          (* [!isNaN(yearParsed) && yearParsed <= year] *)
    | None => false
    end.

Definition filteredLocations (locations : FeatureCollection)
    (year : Z) (yearFilterEnabled : bool) : FeatureCollection :=
  match features locations with
  | None => locations
  | Some fs =>
      let filtered := filter (keepFeature year yearFilterEnabled) fs in
      {| type := "FeatureCollection"; features := Some filtered |}
  end.
End Filter.

(** ** [Array.prototype.sort] *)

(** The sort is stable and, for a consistent comparator, its result is the
    one stable ordering of the array; insertion from the right computes it.
    [comparefn x y > 0] puts [x] after [y]; on a tie the element that came
    first stays first.  The sort reads of the comparator's result whether
    it is above, at or below zero. *)
Fixpoint insert {A : Type} (comparefn : A -> A -> Q) (x : A) (sorted : list A)
  : list A :=
  match sorted with
  | [] => [x]
  | y :: rest =>
      if Qle_bool (comparefn x y) 0 then x :: y :: rest
      else y :: insert comparefn x rest
  end.

(** What the sort reads of a comparator's result [v]: its sign, a [NaN]
    counting as zero. *)
Definition sortSign (v : Number) : Z :=
  match v with
  | S754_finite s _ _ | S754_infinity s => if s then -1 else 1
  | _ => 0
  end.

Fixpoint Array_sort {A : Type} (comparefn : A -> A -> Q) (array : list A)
  : list A :=
  match array with
  | [] => []
  | x :: rest => insert comparefn x (Array_sort comparefn rest)
  end.

(** ** Plain objects used as dictionaries *)

(** The values the counting loop stores: numbers and strings. *)
Inductive Primitive : Type :=
| JNumber (n : Z)
| JString (s : string).

(** The value of a property read: a primitive of the object's own, or an
    object inherited from [Object.prototype], kept as the text it converts
    to under [+]. *)
Inductive JsValue : Type :=
| JPrim (p : Primitive)
| JObject (text : string).

(** Own enumerable properties, in creation order. *)
Definition JsObject : Type := list (string * Primitive).

Fixpoint getOwnProperty (o : JsObject) (key : string) : option Primitive :=
  match o with
  | [] => None
  | (k, v) :: rest => if (k =? key)%string then Some v else getOwnProperty rest key
  end.

Section Objects.
Context `{Host}.

(** What [{}] inherits: the properties of [Object.prototype].  [__proto__]
    is an accessor whose getter answers [Object.prototype] itself. *)
Definition Object_prototype (key : string) : option JsValue :=
  if (key =? "__proto__")%string then Some (JObject "[object Object]")
  else if (key =? "constructor")%string then Some (JObject (nativeFunction "Object"))
  else if existsb (String.eqb key)
            ["hasOwnProperty"; "isPrototypeOf"; "propertyIsEnumerable";
             "toLocaleString"; "toString"; "valueOf";
             "__defineGetter__"; "__defineSetter__";
             "__lookupGetter__"; "__lookupSetter__"]
  then Some (JObject (nativeFunction key))
  else None.

(** [o[key]] for an object literal [o]; [None] is [undefined]. *)
Definition get (o : JsObject) (key : string) : option JsValue :=
  match getOwnProperty o key with
  | Some v => Some (JPrim v)
  | None => Object_prototype key
  end.
End Objects.

Fixpoint update (o : JsObject) (key : string) (v : Primitive) : JsObject :=
  match o with
  | [] => []
  | (k, w) :: rest =>
      if (k =? key)%string then (k, v) :: rest else (k, w) :: update rest key v
  end.

(** [o[key] = v] with a primitive [v].  The inherited setter of [__proto__]
    ignores a primitive; any other key is written as an own property, in
    place when it exists and appended otherwise. *)
Definition set (o : JsObject) (key : string) (v : Primitive) : JsObject :=
  if (key =? "__proto__")%string then o
  else
    match getOwnProperty o key with
    | Some _ => update o key v
    | None => (o ++ [(key, v)])%list
    end.

(** [(v || 0) + 1] *)
Definition orZeroPlus1 (v : option JsValue) : Primitive :=
  match v with
  | None => JNumber 1
  | Some (JPrim (JNumber n)) => if n =? 0 then JNumber 1 else JNumber (n + 1)
  | Some (JPrim (JString s)) =>
      if (s =? "")%string then JNumber 1 else JString (s ++ "1")
  | Some (JObject text) => JString (text ++ "1")
  end.

(** An array index: the canonical decimal text of an integer below
    [2^32 - 1]. *)
Definition arrayIndex (key : string) : option N :=
  match NilZero.uint_of_string key with
  | Some d =>
      let n := N.of_uint d in
      if ((NilZero.string_of_uint (N.to_uint n) =? key)%string
          && (n <? 4294967295)%N)%bool
      then Some n else None
  | None => None
  end.

Definition indexOf (entry : string * Primitive) : Z :=
  match arrayIndex (fst entry) with
  | Some n => Z.of_N n
  | None => 0
  end.

Definition isIndexed (entry : string * Primitive) : bool :=
  match arrayIndex (fst entry) with
  | Some _ => true
  | None => false
  end.

(** [Object.entries(o)]: array-index keys in ascending numeric order, then
    the other keys in creation order. *)
Definition Object_entries (o : JsObject) : list (string * Primitive) :=
  Array_sort (fun a b => inject_Z (indexOf a - indexOf b)) (filter isIndexed o)
  ++ filter (fun entry => negb (isIndexed entry)) o.

(** ** The derived lists ([src/App.js], lines 45-72) *)

(** An element of [uniqueOwners]: [{ owner, count }]. *)
Record OwnerCount : Type := mkOwnerCount {
  entry_owner : string;
  entry_count : Primitive
}.

(** An element of [uniqueFarms]: [{ name, owner, area }]. *)
Record Farm : Type := mkFarm {
  farm_name : option string;
  farm_owner : option string;
  area : Number
}.

(** The callback [([owner, count]) => ({ owner, count })]. *)
Definition toEntry (entry : string * Primitive) : OwnerCount :=
  {| entry_owner := fst entry; entry_count := snd entry |}.

Section Aggregation.
Context `{Host}.

(** The body of the [forEach] of [uniqueOwners]. *)
Definition countOwner (ownerCounts : JsObject) (f : Feature) : JsObject :=
  match prop owner f with
  | Some o =>
      if truthy (Some o)
      then set ownerCounts o (orZeroPlus1 (get ownerCounts o))
      else ownerCounts
  | None => ownerCounts
  end.

Definition byOwner (a b : OwnerCount) : Q :=
  inject_Z (localeCompare (entry_owner a) (entry_owner b)).

Definition uniqueOwners (filteredLocations : FeatureCollection)
  : Result (list OwnerCount) :=
  fs <- features_array filteredLocations ;;
  let ownerCounts := fold_left countOwner fs [] in
  Ok (Array_sort byOwner (map toEntry (Object_entries ownerCounts))).

(** The callback of the [map] of [uniqueFarms]; [area] is the width of the
    bounding box. *)
Definition toFarm (f : Feature) : Farm :=
  let bounds := getBounds f in
  {| farm_name := prop name f;
     farm_owner := prop owner f;
     area := Number_sub (getEast bounds) (getWest bounds) |}.

(** [(a, b) => a.area - b.area] *)
Definition byArea (a b : Farm) : Q :=
  inject_Z (sortSign (Number_sub (area a) (area b))).

(** [a.name.localeCompare(b.name)]; the sort only sees farms that passed
    [filter((f) => f.name)], whose names are present. *)
Definition byName (a b : Farm) : Q :=
  match farm_name a, farm_name b with
  | Some x, Some y => inject_Z (localeCompare x y)
  | _, _ => 0%Q
  end.

Definition uniqueFarms (filteredLocations : FeatureCollection)
    (rankBySize : bool) : Result (list Farm) :=
  fs <- features_array filteredLocations ;;
  let farms := map toFarm fs in
  let filtered := filter (fun f => truthy (farm_name f)) farms in
  Ok (if rankBySize
      then Array_sort byArea filtered
      else Array_sort byName filtered).
End Aggregation.

(** ** Component state ([src/App.js], lines 20-27) *)

Record State : Type := mkState {
  searchQuery : string;
  selectedBounds : option LatLngBounds;
  year : Z;
  yearFilterEnabled : bool;
  showOwners : bool;
  showFarms : bool;
  highlightedOwner : option string;
  rankBySize : bool
}.

Definition initialState : State :=
  {| searchQuery := "";
     selectedBounds := None;
     year := 1900;
     yearFilterEnabled := false;
     showOwners := false;
     showFarms := false;
     highlightedOwner := None;
     rankBySize := true |}.

(** The state setters.  The updates queued by one handler are applied in the
    order of the calls, so a handler is the composition of its setters. *)
Definition setSearchQuery (v : string) (s : State) : State :=
  mkState v (selectedBounds s) (year s) (yearFilterEnabled s) (showOwners s)
          (showFarms s) (highlightedOwner s) (rankBySize s).
Definition setSelectedBounds (v : option LatLngBounds) (s : State) : State :=
  mkState (searchQuery s) v (year s) (yearFilterEnabled s) (showOwners s)
          (showFarms s) (highlightedOwner s) (rankBySize s).
Definition setYear (v : Z) (s : State) : State :=
  mkState (searchQuery s) (selectedBounds s) v (yearFilterEnabled s)
          (showOwners s) (showFarms s) (highlightedOwner s) (rankBySize s).
Definition setYearFilterEnabled (v : bool) (s : State) : State :=
  mkState (searchQuery s) (selectedBounds s) (year s) v (showOwners s)
          (showFarms s) (highlightedOwner s) (rankBySize s).
Definition setShowOwners (v : bool) (s : State) : State :=
  mkState (searchQuery s) (selectedBounds s) (year s) (yearFilterEnabled s) v
          (showFarms s) (highlightedOwner s) (rankBySize s).
Definition setShowFarms (v : bool) (s : State) : State :=
  mkState (searchQuery s) (selectedBounds s) (year s) (yearFilterEnabled s)
          (showOwners s) v (highlightedOwner s) (rankBySize s).
Definition setHighlightedOwner (v : option string) (s : State) : State :=
  mkState (searchQuery s) (selectedBounds s) (year s) (yearFilterEnabled s)
          (showOwners s) (showFarms s) v (rankBySize s).
Definition setRankBySize (v : bool) (s : State) : State :=
  mkState (searchQuery s) (selectedBounds s) (year s) (yearFilterEnabled s)
          (showOwners s) (showFarms s) (highlightedOwner s) v.

(** What a handler shows the user. *)
Inductive Notice : Type :=
| alert (message : string).

(** The user's actions, one per handler of the markup. *)
Inductive Event : Type :=
| InputChange (value : string)      (* the search field's [onChange] *)
| Submit                            (* the form's [onSubmit] *)
| YearHeaderClick
| YearChange (value : Z)            (* the range control's [onChange] *)
| OwnersHeaderClick
| OwnerClick (owner : string)       (* an item of the owner list *)
| FarmsHeaderClick
| RankBySizeChange (checked : bool).

Section Component.
Context `{Host}.
Variable locations : FeatureCollection.

(** The collection the current render works on. *)
Definition currentLocations (s : State) : FeatureCollection :=
  filteredLocations locations (year s) (yearFilterEnabled s).

(** [feature.properties?.name?.toLowerCase() === searchQuery.toLowerCase()]:
    [undefined] is equal to no string. *)
Definition nameMatches (searchQuery : string) (feature : Feature) : bool :=
  match prop name feature with
  | Some n => (toLowerCase n =? toLowerCase searchQuery)%string
  | None => false
  end.

(** The body of the [forEach] of [handleSearch], on the pair of the state
    under update and the local [found]. *)
Definition searchStep (query : string) (acc : State * bool)
    (feature : Feature) : State * bool :=
  if nameMatches query feature then
    let bounds := getBounds feature in
    (setSelectedBounds (Some bounds) (fst acc), true)
  else acc.

(** [src/App.js], lines 74-90. *)
Definition handleSearch (s : State) : Result (State * list Notice) :=
  fs <- features_array (currentLocations s) ;;
  let '(s', found) := fold_left (searchStep (searchQuery s)) fs (s, false) in
  Ok (s', if negb found then [alert "Region not found!"] else []).

(** The handlers of the markup ([src/App.js], lines 106-199). *)
Definition handle (s : State) (e : Event) : Result (State * list Notice) :=
  match e with
  | InputChange value => Ok (setSearchQuery value s, [])
  | Submit => handleSearch s
  | YearHeaderClick =>
      Ok (setYearFilterEnabled (negb (yearFilterEnabled s)) s, [])
  | YearChange value => Ok (setYear value s, [])
  | OwnersHeaderClick =>
      let s1 := setShowOwners (negb (showOwners s)) s in
      Ok (if showOwners s then setHighlightedOwner None s1 else s1, [])
  | OwnerClick owner => Ok (setHighlightedOwner (Some owner) s, [])
  | FarmsHeaderClick => Ok (setShowFarms (negb (showFarms s)) s, [])
  | RankBySizeChange checked => Ok (setRankBySize checked s, [])
  end.

(** An action is possible when its element is in the rendered markup: the
    range control only under the open year section (and within its
    bounds), the owner items only under the open owner section, the
    ranking checkbox only under the open farm section. *)
Definition rendered (s : State) (e : Event) : Prop :=
  match e with
  | YearChange value =>
      yearFilterEnabled s = true /\ 1650 <= value <= 1780
  | OwnerClick owner =>
      showOwners s = true /\
      exists entries, uniqueOwners (currentLocations s) = Ok entries /\
                      In owner (map entry_owner entries)
  | RankBySizeChange _ => showFarms s = true
  | _ => True
  end.

(** The states a session can be in. *)
Inductive reachable : State -> Prop :=
| reachable_initial : reachable initialState
| reachable_step s e s' notices :
    reachable s -> rendered s e -> handle s e = Ok (s', notices) ->
    reachable s'.
End Component.

(** ** The style callback ([src/App.js], lines 212-221) *)

Record PathOptions : Type := mkPathOptions {
  color : string;
  weight : Z;
  fillColor : string;
  fillOpacity : Q
}.

(** [a === b] on optional texts. *)
Definition strictEquals (a b : option string) : bool :=
  match a, b with
  | Some x, Some y => (x =? y)%string
  | None, None => true
  | _, _ => false
  end.

Definition style (highlightedOwner : option string) (feature : Feature)
  : PathOptions :=
  let isHighlighted :=
    truthy highlightedOwner && strictEquals (prop owner feature) highlightedOwner in
  {| color := if isHighlighted then "#ff0000" else "#663300";
     weight := if isHighlighted then 3 else 2;
     fillColor := if isHighlighted then "#ffaaaa" else "#ffcc99";
     fillOpacity := 1 # 2 |}.

(** ** The rest of the markup ([src/App.js], lines 13-17, 150-167, 209-233) *)

(** The [key] of the map layer: [yearFilterEnabled ? year : 'all'].  The
    layer is built anew when its key changes. *)
Inductive Key : Type :=
| KeyYear (year : Z)
| KeyAll.

Definition geoJsonKey (s : State) : Key :=
  if yearFilterEnabled s then KeyYear (year s) else KeyAll.

(** What the component asks of the map: [map.fitBounds(bounds, { padding })]. *)
Inductive MapCall : Type :=
| fitBounds (bounds : LatLngBounds) (padding : Z * Z).

(** Lines 13-17: [if (bounds) map.fitBounds(bounds, { padding: [50, 50] })]. *)
Definition FlyToBounds (bounds : option LatLngBounds) : list MapCall :=
  match bounds with
  | Some b => [fitBounds b (50, 50)]
  | None => []
  end.

(** Line 233: [{selectedBounds && <FlyToBounds bounds={selectedBounds} />}]. *)
Definition mapCalls (s : State) : list MapCall :=
  match selectedBounds s with
  | Some b => FlyToBounds (Some b)
  | None => []
  end.

(** Lines 222-231, [onEachFeature]: the popup bound to the layer of a
    feature, [None] when none is bound.  The fields are read from
    [feature.properties || {}]. *)
Definition popup (feature : Feature) : option string :=
  match prop name feature with
  | Some n =>
      if truthy (Some n) then
        Some ("<b>" ++ n ++ "</b><br/>"
              ++ match prop owner feature with
                 | Some o => if truthy (Some o) then "Owner: " ++ o ++ "<br/>" else ""
                 | None => ""
                 end
              ++ match prop date feature with
                 | Some d => if truthy (Some d) then "Date: " ++ d else ""
                 | None => ""
                 end)
      else None
  | None => None
  end.

(** Lines 157-161: the inline style of an item of the owner list. *)
Record ItemStyle : Type := mkItemStyle {
  cursor : string;
  fontWeight : string;
  item_color : string
}.

Definition ownerItemStyle (highlightedOwner : option string)
    (entry : OwnerCount) : ItemStyle :=
  let same := strictEquals (Some (entry_owner entry)) highlightedOwner in
  {| cursor := "pointer";
     fontWeight := if same then "bold" else "normal";
     item_color := if same then "#d62828" else "black" |}.

(** ** The earlier revision of the component ([src/unnamed/part_000]) *)

Module Part000.

(** Lines 20-23: the revision has no owner or farm list. *)
Record State : Type := mkState {
  searchQuery : string;
  selectedBounds : option LatLngBounds;
  year : Z;
  yearFilterEnabled : bool
}.

Definition setSelectedBounds (v : option LatLngBounds) (s : State) : State :=
  mkState (searchQuery s) v (year s) (yearFilterEnabled s).

Section Component.
Context `{Host}.
Variable locations : FeatureCollection.

(** Lines 25-39. *)
Definition filteredLocations (year : Z) (yearFilterEnabled : bool)
  : FeatureCollection :=
  match features locations with
  | None => locations
  | Some fs =>
      let filtered :=
        filter (fun feature =>
                  if negb yearFilterEnabled then true
                  else
                    let dateStr := prop date feature in
                    let yearParsed :=
                      match dateStr with
                      | Some s =>
                          if negb (s =? "")%string then Date_getFullYear s
                          else None
                      | None => None
                      end in
                    match yearParsed with
                    | Some y => y <=? year
                    | None => false
                    end) fs in
      {| type := "FeatureCollection"; features := Some filtered |}
  end.

(** Lines 46-48: the test of the search loop. *)
Definition nameMatches (searchQuery : string) (feature : Feature) : bool :=
  match properties feature with
  | Some p =>
      match name p with
      | Some n => (toLowerCase n =? toLowerCase searchQuery)%string
      | None => false
      end
  | None => false
  end.

(** Lines 41-57. *)
Definition handleSearch (s : State) : Result (State * list Notice) :=
  fs <- features_array (filteredLocations (year s) (yearFilterEnabled s)) ;;
  let '(s', found) :=
    fold_left (fun (acc : State * bool) feature =>
                 if nameMatches (searchQuery s) feature
                 then (setSelectedBounds (Some (getBounds feature)) (fst acc), true)
                 else acc) fs (s, false) in
  Ok (s', if negb found then [alert "Region not found!"] else []).

(** The user's actions on the earlier markup (lines 73-105): the search
    field, the form, the check box of the year filter and the range
    control. *)
Inductive Event : Type :=
| InputChange (value : string)
| Submit
| FilterChange (checked : bool)
| YearChange (value : Z).

Definition handle (s : State) (e : Event) : Result (State * list Notice) :=
  match e with
  | InputChange value =>
      Ok (mkState value (selectedBounds s) (year s) (yearFilterEnabled s), [])
  | Submit => handleSearch s
  | FilterChange checked =>
      Ok (mkState (searchQuery s) (selectedBounds s) (year s) checked, [])
  | YearChange value =>
      Ok (mkState (searchQuery s) (selectedBounds s) value
                  (yearFilterEnabled s), [])
  end.
End Component.

End Part000.

(** ** A host to run the component on

    Lower-casing of the ASCII letters, comparison by character code, the
    year of a date text [YYYY] or [YYYY-...], and the box spanned by the
    positions of a geometry; and, for every time zone, a host whose
    [Date] reads the year in local time. *)

Module Sample.

Definition lowerChar (c : ascii) : ascii :=
  let n := nat_of_ascii c in
  if ((65 <=? n) && (n <=? 90))%nat then ascii_of_nat (n + 32) else c.

Fixpoint lower (s : string) : string :=
  match s with
  | EmptyString => EmptyString
  | String c rest => String (lowerChar c) (lower rest)
  end.

Definition codeCompare (a b : string) : Z :=
  match String.compare a b with
  | Lt => -1
  | Eq => 0
  | Gt => 1
  end.

Definition isoYear (s : string) : option Z :=
  let digits := substring 0 4 s in
  let rest := substring 4 (String.length s - 4) s in
  if ((String.length digits =? 4)%nat
      && ((rest =? "")%string || prefix "-" rest))%bool
  then
    match NilZero.uint_of_string digits with
    | Some d => Some (Z.of_N (N.of_uint d))
    | None => None
    end
  else None.

(** The binary64 number nearest to [n / d]. *)
Definition num (n d : Z) : Number :=
  SFdiv 53 1024 (binary_normalize 53 1024 n 0 false)
                (binary_normalize 53 1024 d 0 false).

Definition least (a b : Number) : Number := if SFltb b a then b else a.
Definition greatest (a b : Number) : Number := if SFltb a b then b else a.

Definition positions (g : Geometry) : list Position :=
  match g with
  | Polygon rings => List.concat rings
  | MultiPolygon polygons => List.concat (List.concat polygons)
  end.

Definition extend (b : LatLngBounds) (p : Position) : LatLngBounds :=
  {| getWest := least (getWest b) (fst p);
     getSouth := least (getSouth b) (snd p);
     getEast := greatest (getEast b) (fst p);
     getNorth := greatest (getNorth b) (snd p) |}.

Definition box (f : Feature) : LatLngBounds :=
  match positions (geometry f) with
  | [] => mkBounds (num 0 1) (num 0 1) (num 0 1) (num 0 1)
  | p :: rest => fold_left extend rest (mkBounds (fst p) (snd p) (fst p) (snd p))
  end.

#[local] Instance host : Host :=
  {| toLowerCase := lower;
     localeCompare := codeCompare;
     Date_getFullYear := isoYear;
     nativeFunction := fun f => "function " ++ f ++ "() { [native code] }";
     getBounds := box |}.

(** *** Dates in the time zone of the host

    [new Date(s).getFullYear()] as ECMAScript defines it for the date-only
    forms of the date time string format: the text is read as a time of
    day 00:00 UTC, and the year is that of the local time. *)

Definition number (digits : string) : option Z :=
  match NilZero.uint_of_string digits with
  | Some d => Some (Z.of_N (N.of_uint d))
  | None => None
  end.

Definition msPerDay : Z := 86400000.
Definition msPerMinute : Z := 60000.

Definition Day (t : Z) : Z := t / msPerDay.

Definition DayFromYear (y : Z) : Z :=
  365 * (y - 1970) + (y - 1969) / 4 - (y - 1901) / 100 + (y - 1601) / 400.

Definition DaysInYear (y : Z) : Z := DayFromYear (y + 1) - DayFromYear y.

(** The days of the year [y] before its month [m], counted from 1. *)
Definition daysBeforeMonth (y m : Z) : Z :=
  nth (Z.to_nat (m - 1)) [0; 31; 59; 90; 120; 151; 181; 212; 243; 273; 304; 334] 0
  + (if ((2 <? m) && (DaysInYear y =? 366))%bool then 1 else 0).

Definition DaysInMonth (y m : Z) : Z :=
  if m =? 12 then 31 else daysBeforeMonth y (m + 1) - daysBeforeMonth y m.

(** [MakeDay], for a month and a day that the calendar has. *)
Definition MakeDay (y m d : Z) : Z := DayFromYear y + daysBeforeMonth y m + d - 1.

(** The first year, from [y] downwards, that starts on or before [day]. *)
Fixpoint yearNotAfter (fuel : nat) (y day : Z) : Z :=
  match fuel with
  | O => y
  | S fuel' =>
      if DayFromYear y <=? day then y else yearNotAfter fuel' (y - 1) day
  end.

(** The largest [y] with [TimeFromYear y <= t]: sought downwards from a
    year that starts after [t]. *)
Definition YearFromTime (t : Z) : Z :=
  let day := Day t in
  yearNotAfter (Z.to_nat (Z.abs day / 100000 + 3))
               (1970 + Z.max (day / 365) (day / 366) + 1) day.

(** The forms [YYYY], [YYYY-MM] and [YYYY-MM-DD]: year, month and day, a
    missing month or day being the first. *)
Definition isoDate (s : string) : option (Z * Z * Z) :=
  let field (start len : nat) := number (substring start len s) in
  let dash (at_ : nat) := (substring at_ 1 s =? "-")%string in
  let checked (y m d : Z) :=
    if ((1 <=? m) && (m <=? 12) && (1 <=? d) && (d <=? DaysInMonth y m))%bool
    then Some (y, m, d) else None in
  match String.length s with
  | 4%nat =>
      match field 0%nat 4%nat with
      | Some y => Some (y, 1, 1)
      | None => None
      end
  | 7%nat =>
      match field 0%nat 4%nat, field 5%nat 2%nat with
      | Some y, Some m => if dash 4%nat then checked y m 1 else None
      | _, _ => None
      end
  | 10%nat =>
      match field 0%nat 4%nat, field 5%nat 2%nat, field 8%nat 2%nat with
      | Some y, Some m, Some d =>
          if (dash 4%nat && dash 7%nat)%bool then checked y m d else None
      | _, _, _ => None
      end
  | _ => None
  end.

(** [new Date(s).getFullYear()] where local time is [minutes] ahead of
    UTC; [NaN] for a text of another form. *)
Definition getFullYearAt (minutes : Z) (s : string) : option Z :=
  match isoDate s with
  | Some (y, m, d) =>
      let tv := MakeDay y m d * msPerDay in
      Some (YearFromTime (tv + minutes * msPerMinute))
  | None => None
  end.

(** The host in the time zone [minutes] ahead of UTC. *)
Definition hostAt (minutes : Z) : Host :=
  {| toLowerCase := lower;
     localeCompare := codeCompare;
     Date_getFullYear := getFullYearAt minutes;
     nativeFunction := fun f => "function " ++ f ++ "() { [native code] }";
     getBounds := box |}.

(** A square of side [side] whose south-west corner is [(west, south)]. *)
Definition square (west south side : Number) : Geometry :=
  Polygon [[(west, south); (SFadd 53 1024 west side, south);
            (SFadd 53 1024 west side, SFadd 53 1024 south side);
            (west, SFadd 53 1024 south side);
            (west, south)]].

Definition farm (g : Geometry) (n o d : option string) : Feature :=
  {| geometry := g;
     properties := Some {| name := n; owner := o; date := d |} |}.

(** The three records of the specification's scenario. *)
Definition goedeHoop : Feature :=
  farm (square (num 18 1) (num (-34) 1) (num 1 10))
       (Some "Goede Hoop") (Some "Van Riebeeck") (Some "1657-04-02").
Definition nieuwland : Feature :=
  farm (square (num 19 1) (num (-34) 1) (num 2 10))
       (Some "Nieuwland") (Some "Van Riebeeck") (Some "1700-01-01").
Definition oosthuizen : Feature :=
  farm (square (num 20 1) (num (-33) 1) (num 3 10))
       (Some "Oosthuizen") None (Some "1750-06-01").

Definition store : FeatureCollection :=
  {| type := "FeatureCollection";
     features := Some [goedeHoop; nieuwland; oosthuizen] |}.

(** A second record under the first one's name, elsewhere on the map. *)
Definition goedeHoopAnnex : Feature :=
  farm (square (num 21 1) (num (-32) 1) (num 1 2))
       (Some "GOEDE HOOP") (Some "Van der Stel") (Some "1699-01-01").

Definition duplicates : FeatureCollection :=
  {| type := "FeatureCollection";
     features := Some [goedeHoop; nieuwland; goedeHoopAnnex] |}.

(** A record whose name is the empty text, and a store that holds it. *)
Definition nameless : Feature :=
  farm (square (num 17 1) (num (-33) 1) (num 1 4)) (Some "") None (Some "1690-01-01").

Definition withNameless : FeatureCollection :=
  {| type := "FeatureCollection"; features := Some [goedeHoop; nameless] |}.

(** A record dated on the first day of 1701. *)
Definition nieuwjaar : Feature :=
  farm (square (num 18 1) (num (-33) 1) (num 1 10))
       (Some "Nieuwjaar") None (Some "1701-01-01").

(** A rectangle between the longitudes [west] and [east]. *)
Definition strip (west east : Number) : Geometry :=
  Polygon [[(west, num (-34) 1); (east, num (-34) 1);
            (east, num (-33) 1); (west, num (-33) 1);
            (west, num (-34) 1)]].

(** Two records whose widths differ and round to one binary64 number:
    from 0 to 0.30000000000000004, and from 0.1 to 0.4. *)
Definition paradijs : Feature :=
  farm (strip (num 0 1) (num 30000000000000004 100000000000000000))
       (Some "Paradijs") None None.
Definition nooitgedacht : Feature :=
  farm (strip (num 1 10) (num 4 10)) (Some "Nooitgedacht") None None.

(** A store without a feature array, and a store without records. *)
Definition noFeatures : FeatureCollection :=
  {| type := "FeatureCollection"; features := None |}.

Definition noRecords : FeatureCollection :=
  {| type := "FeatureCollection"; features := Some [] |}.

(** The state after the year section was opened and the range control
    moved to 1700. *)
Definition at1700 : State :=
  setYear 1700 (setYearFilterEnabled true initialState).

(** The state after [Goede Hoop] was typed in and found. *)
Definition found : State :=
  setSelectedBounds (Some (box goedeHoop))
    (setSearchQuery "Goede Hoop" initialState).

(** The state after the owner list was opened. *)
Definition opened : State := setShowOwners true initialState.

(** The state after a successful search for [Goede Hoop], with the next
    query typed in. *)
Definition searched : State :=
  setSearchQuery "Atlantis"
    (setSelectedBounds (Some (box goedeHoop)) initialState).

(** The state after [Goede Hoop] was typed in. *)
Definition typed : State := setSearchQuery "Goede Hoop" initialState.

(** The state after the owner list was opened and [Van Riebeeck] picked. *)
Definition picked : State :=
  setHighlightedOwner (Some "Van Riebeeck") (setShowOwners true initialState).

(** The state after the owner list was opened, [Van Riebeeck] picked and
    the list closed. *)
Definition closed : State :=
  setHighlightedOwner None
    (setShowOwners false
       (setHighlightedOwner (Some "Van Riebeeck")
          (setShowOwners true initialState))).

End Sample.

(** ** Vocabulary of the properties *)



(** A finite number as a multiple of [2 ^ e0], for [e0] not above its
    exponent: [(-1)^s * m * 2^e = aligned e0 x * 2^e0]. *)
Definition aligned (e0 : Z) (x : Number) : Z :=
  match x with
  | S754_finite s m e => cond_Zopp s (Zpos m * 2 ^ (e - e0))
  | _ => 0
  end.




(** [a] is not placed after [b] by the comparator. *)
Definition notAfter {A : Type} (comparefn : A -> A -> Q) (a b : A) : Prop :=
  (comparefn a b <= 0)%Q.

(** The part of the state the earlier revision has. *)
Definition toPart000 (s : State) : Part000.State :=
  Part000.mkState (searchQuery s) (selectedBounds s) (year s)
                  (yearFilterEnabled s).

(** The action of the earlier markup that an action of [src/App.js] stands
    for, if any: a click on the header of the year section does what a
    click on the check box did. *)
Definition counterpart (s : State) (e : Event) : option Part000.Event :=
  match e with
  | InputChange value => Some (Part000.InputChange value)
  | Submit => Some Part000.Submit
  | YearHeaderClick => Some (Part000.FilterChange (negb (yearFilterEnabled s)))
  | YearChange value => Some (Part000.YearChange value)
  | _ => None
  end.

(** The style of a highlighted feature. *)
Definition highlighted (options : PathOptions) : Prop :=
  color options = "#ff0000" /\ weight options = 3 /\
  fillColor options = "#ffaaaa".

(** The records whose layer gets a popup. *)
Definition hasPopup (f : Feature) : bool :=
  match popup f with
  | Some _ => true
  | None => false
  end.

Definition sameName (n : string) (farm : Farm) : bool :=
  strictEquals (farm_name farm) (Some n).

(** The records that count as owned, and as named. *)
Definition owned (f : Feature) : bool := truthy (prop owner f).
Definition named (f : Feature) : bool := truthy (prop name f).

(** A count that is a number. *)
Definition numeric (entry : OwnerCount) : option Z :=
  match entry_count entry with
  | JNumber n => Some n
  | JString _ => None
  end.

(** The sum of the counts, when every count is a number. *)
Fixpoint countSum (entries : list OwnerCount) : option Z :=
  match entries with
  | [] => Some 0
  | entry :: rest =>
      match numeric entry, countSum rest with
      | Some n, Some total => Some (n + total)
      | _, _ => None
      end
  end.

(** The number of records of [fs] owned by [o]. *)
Definition ownedBy (o : string) (fs : list Feature) : Z :=
  Z.of_nat (List.length (filter (fun f => strictEquals (prop owner f) (Some o)) fs)).

(** What the counting loop has built after the records [fs]: one own
    property per owner text met, holding the number of records met under
    it, and the counts add up to the number of owned records met. *)
Definition counted (o : JsObject) (fs : list Feature) : Prop :=
  NoDup (map fst o) /\
  (forall k, getOwnProperty o k
             = if (negb (k =? "")%string && (0 <? ownedBy k fs))%bool
               then Some (JNumber (ownedBy k fs)) else None) /\
  countSum (map toEntry o) = Some (Z.of_nat (List.length (filter owned fs))).

Section Vocabulary.
Context `{Host}.

(** Ascending order of two list entries under [localeCompare]. *)
Definition ownersAscending (a b : OwnerCount) : Prop :=
  localeCompare (entry_owner a) (entry_owner b) <= 0.




(** An owner text that is the name of no property of [Object.prototype]. *)
Definition plain (o : string) : Prop := Object_prototype o = None.

(** The states of a session in which no search has found a record yet:
    every search so far has ended in the notice. *)
Inductive unfound (locations : FeatureCollection) : State -> Prop :=
| unfound_initial : unfound locations initialState
| unfound_step s e s' notices :
    unfound locations s -> rendered locations s e ->
    handle locations s e = Ok (s', notices) ->
    (e = Submit -> notices <> []) ->
    unfound locations s'.
End Vocabulary.

(** * Properties *)

(** ** Sorting *)

Section Sorting.
Context {A : Type} (comparefn : A -> A -> Q).

Lemma insert_perm (x : A) (l : list A) :
  Permutation (insert comparefn x l) (x :: l).
Proof.
  induction l as [|y l IH]; simpl.
  - apply Permutation_refl.
  - destruct (Qle_bool (comparefn x y) 0).
    + apply Permutation_refl.
    + apply perm_trans with (y :: x :: l).
      * now apply perm_skip.
      * apply perm_swap.
Qed.

Lemma Array_sort_perm (l : list A) : Permutation (Array_sort comparefn l) l.
Proof.
  induction l as [|x l IH]; simpl.
  - apply perm_nil.
  - apply perm_trans with (x :: Array_sort comparefn l).
    + apply insert_perm.
    + now apply perm_skip.
Qed.

(** The comparator is consistent on the elements that satisfy [P]. *)
Variable P : A -> Prop.
Hypothesis antisym :
  forall a b, P a -> P b -> (0 < comparefn a b)%Q -> (comparefn b a < 0)%Q.
Hypothesis trans :
  forall a b c, P a -> P b -> P c ->
    notAfter comparefn a b -> notAfter comparefn b c -> notAfter comparefn a c.

Lemma insert_sorted (x : A) (l : list A) :
  P x -> Forall P l ->
  StronglySorted (notAfter comparefn) l -> StronglySorted (notAfter comparefn) (insert comparefn x l).
Proof.
  intros Px Pl Hs. induction Hs as [|y l Hs IH Hy]; simpl.
  - constructor; constructor.
  - inversion Pl as [|? ? Py Pl']; subst.
    destruct (Qle_bool (comparefn x y) 0) eqn:E.
    + apply Qle_bool_iff in E.
      constructor.
      * now constructor.
      * constructor; [exact E|].
        rewrite Forall_forall in *. intros z Hz.
        apply trans with y; auto.
    + assert (Hxy : (0 < comparefn x y)%Q).
      { apply Qnot_le_lt. intro Hle. apply Qle_bool_iff in Hle. congruence. }
      constructor.
      * now apply IH.
      * apply Permutation_Forall with (x :: l).
        -- apply Permutation_sym, insert_perm.
        -- constructor; [|exact Hy].
           apply Qlt_le_weak. now apply antisym.
Qed.

Lemma Array_sort_sorted (l : list A) :
  Forall P l -> StronglySorted (notAfter comparefn) (Array_sort comparefn l).
Proof.
  induction l as [|x l IH]; simpl; intros Hl.
  - constructor.
  - inversion Hl; subst.
    apply insert_sorted; auto.
    apply Permutation_Forall with l; [|assumption].
    apply Permutation_sym, Array_sort_perm.
Qed.
End Sorting.

(** ** The year filter *)

Section FilterProperties.
Context `{Host}.




(** C3.  With the year filter disabled the filter hands back the records
    of the store as they are, all of them and in the same order, whatever
    their dates. *)
Theorem filteredLocations_year_disabled (locations : FeatureCollection)
    (year : Z) :
  features (filteredLocations locations year false) = features locations.
Proof.
  unfold filteredLocations.
  destruct (features locations) as [fs|] eqn:E; simpl; [|assumption].
  f_equal. clear E. induction fs as [|f fs IH]; [reflexivity|].
  cbn [filter]. unfold keepFeature at 1. cbn [negb]. now f_equal.
Qed.

(** C10.  The filter and the search test of [src/unnamed/part_000] are
    those of [src/App.js]: the same filtered collection for every store,
    year and flag, the same verdict for every query and record. *)
Theorem part000_agrees_with_app (locations : FeatureCollection) (year : Z)
    (yearFilterEnabled : bool) (searchQuery : string) (feature : Feature) :
  Part000.filteredLocations locations year yearFilterEnabled
    = filteredLocations locations year yearFilterEnabled /\
  Part000.nameMatches searchQuery feature = nameMatches searchQuery feature.
Proof.
  split.
  - unfold Part000.filteredLocations, filteredLocations.
    destruct (features locations) as [fs|]; [|reflexivity].
    simpl. do 2 f_equal. apply filter_ext. intros f.
    unfold keepFeature, yearParsed, truthy.
    destruct (negb yearFilterEnabled); [reflexivity|].
    destruct (prop date f) as [d|]; [|reflexivity].
    destruct (negb (d =? "")%string); reflexivity.
  - unfold Part000.nameMatches, nameMatches, prop.
    destruct (properties feature) as [p|]; reflexivity.
Qed.
End FilterProperties.

(** ** The year filter and the time zone of the host *)

(** The local time of the instant [1701-01-01T00:00Z] lies in 1700 behind
    UTC, and in 1701 elsewhere. *)
Lemma getFullYearAt_new_year (minutes : Z) :
  -1440 < minutes < 1440 ->
  Sample.getFullYearAt minutes "1701-01-01"
  = Some (if minutes <? 0 then 1700 else 1701).
Proof.
  intros Hzone. unfold Sample.getFullYearAt.
  replace (Sample.isoDate "1701-01-01") with (Some (1701, 1, 1))
    by (vm_compute; reflexivity).
  cbv zeta. f_equal. unfold Sample.YearFromTime. cbv zeta.
  replace (Sample.MakeDay 1701 1 1) with (-98250) by (vm_compute; reflexivity).
  assert (Hday : Sample.Day (-98250 * Sample.msPerDay
                             + minutes * Sample.msPerMinute)
                 = if minutes <? 0 then -98251 else -98250).
  { unfold Sample.Day, Sample.msPerDay, Sample.msPerMinute.
    destruct (Z.ltb_spec minutes 0).
    - symmetry. apply Z.div_unique with (r := 86400000 + minutes * 60000); lia.
    - symmetry. apply Z.div_unique with (r := minutes * 60000); lia. }
  rewrite Hday. destruct (minutes <? 0); vm_compute; reflexivity.
Qed.

(** C2.  The year that the filter compares with the threshold is the year
    of the date in the local time of the host, which is not always the
    calendar year of the date text: the record dated [1701-01-01], of
    calendar year 1701, is kept at the threshold 1700 on every host whose
    local time is behind UTC, and left out on every other host. *)
Theorem filteredLocations_year_is_local (minutes : Z) :
  -1440 < minutes < 1440 ->
  prop date Sample.nieuwjaar = Some "1701-01-01" /\
  Sample.isoDate "1701-01-01" = Some (1701, 1, 1) /\
  @filteredLocations (Sample.hostAt minutes)
    (mkCollection "FeatureCollection" (Some [Sample.nieuwjaar])) 1700 true
  = mkCollection "FeatureCollection"
      (Some (if minutes <? 0 then [Sample.nieuwjaar] else [])).
Proof.
  intros Hzone. split; [reflexivity|]. split; [vm_compute; reflexivity|].
  unfold filteredLocations. cbn [features type filter]. do 2 f_equal.
  unfold keepFeature, yearParsed. cbv zeta. cbn [negb].
  change (prop date Sample.nieuwjaar) with (Some "1701-01-01").
  change (truthy (Some "1701-01-01")) with true. cbv iota.
  change (@Date_getFullYear (Sample.hostAt minutes))
    with (Sample.getFullYearAt minutes).
  rewrite getFullYearAt_new_year by assumption.
  destruct (minutes <? 0); reflexivity.
Qed.

(** ** The search *)

Section SearchProperties.
Context `{Host}.
Variable locations : FeatureCollection.

Lemma setSelectedBounds_same (s : State) :
  setSelectedBounds (selectedBounds s) s = s.
Proof. now destruct s. Qed.

Lemma searchStep_no_match (q : string) (fs : list Feature) (acc : State * bool) :
  filter (nameMatches q) fs = [] ->
  fold_left (searchStep q) fs acc = acc.
Proof.
  revert acc. induction fs as [|f fs IH]; intros acc Hnone; [reflexivity|].
  simpl in *. unfold searchStep at 2.
  destruct (nameMatches q f); [discriminate|]. now apply IH.
Qed.

(** Every matching record overwrites the bounds the previous one set. *)
Lemma searchStep_last_match (q : string) (fs : list Feature) :
  forall ms m s v b,
    filter (nameMatches q) fs = (ms ++ [m])%list ->
    fold_left (searchStep q) fs (setSelectedBounds v s, b)
      = (setSelectedBounds (Some (getBounds m)) s, true).
Proof.
  induction fs as [|f fs IH]; intros ms m s v b Hms.
  - now destruct ms.
  - simpl in *. unfold searchStep at 2.
    destruct (nameMatches q f) eqn:Hf; [|now apply IH with ms].
    simpl fst. change (setSelectedBounds (Some (getBounds f)) (setSelectedBounds v s))
      with (setSelectedBounds (Some (getBounds f)) s).
    destruct ms as [|m' ms]; simpl in Hms; injection Hms as -> Hrest.
    + now rewrite searchStep_no_match.
    + now apply IH with ms.
Qed.

Lemma handleSearch_not_found (s : State) (fs : list Feature) :
  features (currentLocations locations s) = Some fs ->
  filter (nameMatches (searchQuery s)) fs = [] ->
  handleSearch locations s = Ok (s, [alert "Region not found!"]).
Proof.
  intros Hfs Hnone. unfold handleSearch, features_array. rewrite Hfs. simpl.
  now rewrite searchStep_no_match.
Qed.

Lemma handleSearch_found (s : State) (fs ms : list Feature) (m : Feature) :
  features (currentLocations locations s) = Some fs ->
  filter (nameMatches (searchQuery s)) fs = (ms ++ [m])%list ->
  handleSearch locations s = Ok (setSelectedBounds (Some (getBounds m)) s, []).
Proof.
  intros Hfs Hms. unfold handleSearch, features_array. rewrite Hfs. simpl.
  pose proof (searchStep_last_match (searchQuery s) fs ms m s
                (selectedBounds s) false Hms) as E.
  rewrite setSelectedBounds_same in E. now rewrite E.
Qed.

(** The two ways a search ends. *)
Lemma handleSearch_cases (s s' : State) (notices : list Notice) :
  handleSearch locations s = Ok (s', notices) ->
  exists fs, features (currentLocations locations s) = Some fs /\
    ((filter (nameMatches (searchQuery s)) fs = [] /\
      s' = s /\ notices = [alert "Region not found!"]) \/
     (exists m, In m fs /\ nameMatches (searchQuery s) m = true /\
        s' = setSelectedBounds (Some (getBounds m)) s /\ notices = [])).
Proof.
  intros Hs.
  destruct (features (currentLocations locations s)) as [fs|] eqn:Hfs.
  - exists fs. split; [reflexivity|].
    destruct (filter (nameMatches (searchQuery s)) fs) as [|m0 ms0] eqn:Hms.
    + left. rewrite (handleSearch_not_found s fs Hfs Hms) in Hs.
      injection Hs as <- <-. auto.
    + right. destruct (@exists_last _ (m0 :: ms0)) as (ms & m & Hlast);
        [discriminate|].
      rewrite Hlast in Hms.
      rewrite (handleSearch_found s fs ms m Hfs Hms) in Hs.
      injection Hs as <- <-. exists m.
      assert (Hin : In m (filter (nameMatches (searchQuery s)) fs)).
      { rewrite Hms. apply in_or_app. right. now left. }
      apply filter_In in Hin as [Hin Hm]. auto.
  - unfold handleSearch, features_array in Hs. rewrite Hfs in Hs. discriminate.
Qed.

Lemma nameMatches_iff (q : string) (f : Feature) :
  nameMatches q f = true <->
  exists n, prop name f = Some n /\ toLowerCase n = toLowerCase q.
Proof.
  unfold nameMatches. destruct (prop name f) as [n|].
  - rewrite String.eqb_eq. split.
    + intros Hn. now exists n.
    + intros (n' & Hn' & Hq). now injection Hn' as <-.
  - split; [discriminate|]. now intros (n & Hn & _).
Qed.
End SearchProperties.

Section SearchClaims.
Context `{Host}.

(** C1, as amended.  When the query matches records of the filtered
    collection, more than one in particular, the search sets the bounds of
    the last matching record in store order: every match overwrites the
    bounds set by the matches before it, and no notice is raised. *)
Theorem handleSearch_last_match_wins (locations : FeatureCollection)
    (s : State) (fs ms : list Feature) (m : Feature) :
  features (currentLocations locations s) = Some fs ->
  filter (nameMatches (searchQuery s)) fs = (ms ++ [m])%list ->
  handleSearch locations s
    = Ok (setSelectedBounds (Some (getBounds m)) s, []).
Proof.
  intros Hfs Hms. unfold handleSearch, features_array. rewrite Hfs. simpl.
  pose proof (searchStep_last_match (searchQuery s) fs ms m s
                (selectedBounds s) false Hms) as Hloop.
  rewrite setSelectedBounds_same in Hloop. now rewrite Hloop.
Qed.

(** C4.  The search compares the lower-cased query with the lower-cased
    name of each record of the filtered collection, and of no other
    record: when a record that passes the filter matches, the bounds set
    are those of such a record; when every record of the store that
    matches is excluded by the year filter, the search ends in the notice
    and changes nothing. *)
Theorem handleSearch_searches_filtered_only (ty : string)
    (fs0 : list Feature) (s : State) :
  (forall f, nameMatches (searchQuery s) f = true <->
     exists n, prop name f = Some n /\
               toLowerCase n = toLowerCase (searchQuery s)) /\
  ((exists f, In f fs0 /\
              keepFeature (year s) (yearFilterEnabled s) f = true /\
              nameMatches (searchQuery s) f = true) ->
   exists f, In f fs0 /\
             keepFeature (year s) (yearFilterEnabled s) f = true /\
             nameMatches (searchQuery s) f = true /\
             handleSearch (mkCollection ty (Some fs0)) s
               = Ok (setSelectedBounds (Some (getBounds f)) s, [])) /\
  ((forall f, In f fs0 -> nameMatches (searchQuery s) f = true ->
              keepFeature (year s) (yearFilterEnabled s) f = false) ->
   handleSearch (mkCollection ty (Some fs0)) s
     = Ok (s, [alert "Region not found!"])).
Proof.
  set (locations := mkCollection ty (Some fs0)).
  set (fs := filter (keepFeature (year s) (yearFilterEnabled s)) fs0).
  assert (Hfs : features (currentLocations locations s) = Some fs)
    by reflexivity.
  split; [intros f; apply nameMatches_iff|]. split.
  - intros (f & Hin & Hkeep & Hf).
    destruct (filter (nameMatches (searchQuery s)) fs) as [|m0 ms0] eqn:Hms.
    + assert (Hf' : In f (filter (nameMatches (searchQuery s)) fs)).
      { apply filter_In. split; [|assumption]. now apply filter_In. }
      rewrite Hms in Hf'. destruct Hf'.
    + destruct (@exists_last _ (m0 :: ms0)) as (ms & m & Hlast);
        [discriminate|].
      rewrite Hlast in Hms.
      assert (Hm : In m (filter (nameMatches (searchQuery s)) fs)).
      { rewrite Hms. apply in_or_app. right. now left. }
      apply filter_In in Hm as [Hm Hmatch].
      apply filter_In in Hm as [Hm Hshown].
      exists m. repeat split; try assumption.
      now apply handleSearch_found with fs ms.
  - intros Hexcluded. apply handleSearch_not_found with fs; [assumption|].
    destruct (filter (nameMatches (searchQuery s)) fs) as [|m ms] eqn:Hms;
      [reflexivity|].
    assert (Hm : In m (filter (nameMatches (searchQuery s)) fs))
      by (rewrite Hms; now left).
    apply filter_In in Hm as [Hm Hmatch].
    apply filter_In in Hm as [Hm Hshown].
    rewrite (Hexcluded m Hm Hmatch) in Hshown. discriminate.
Qed.

(** C7.  A search with no match in the filtered collection leaves the
    state, [selectedBounds] included, as it was and raises the notice; a
    handler that changes [selectedBounds] is a search that found a record
    of the filtered collection; toggling the year filter and moving the
    year leave [selectedBounds] alone. *)
Theorem selectedBounds_changed_only_by_found_search
    (locations : FeatureCollection) (s s' : State) (e : Event)
    (notices : list Notice) :
  handle locations s e = Ok (s', notices) ->
  (e = Submit ->
   (forall fs f, features (currentLocations locations s) = Some fs ->
                 In f fs -> nameMatches (searchQuery s) f = false) ->
   s' = s /\ notices = [alert "Region not found!"]) /\
  (selectedBounds s' <> selectedBounds s ->
   e = Submit /\ notices = [] /\
   exists fs f, features (currentLocations locations s) = Some fs /\
                In f fs /\ nameMatches (searchQuery s) f = true /\
                selectedBounds s' = Some (getBounds f)) /\
  ((e = YearHeaderClick \/ exists value, e = YearChange value) ->
   selectedBounds s' = selectedBounds s /\ notices = []).
Proof.
  intros Hstep. split; [|split].
  - intros -> Hnone. simpl in Hstep.
    apply handleSearch_cases in Hstep
      as (fs & Hfs & [(_ & -> & ->) | (m & Hm & Hmatch & _)]); [auto|].
    rewrite (Hnone fs m Hfs Hm) in Hmatch. discriminate.
  - intros Hchanged.
    destruct e; simpl in Hstep;
      try (injection Hstep as <- <-; try destruct (showOwners s);
           now contradiction Hchanged).
    apply handleSearch_cases in Hstep
      as (fs & Hfs & [(_ & -> & ->) | (m & Hm & Hmatch & -> & ->)]).
    + now contradiction Hchanged.
    + repeat split. now exists fs, m.
  - intros [-> | (value & ->)]; simpl in Hstep;
      injection Hstep as <- <-; auto.
Qed.
End SearchClaims.

(** ** The search of the earlier revision *)

Section RevisionProperties.
Context `{Host}.
Variable locations : FeatureCollection.

Lemma part000_search_loop (q : string) (fs : list Feature) (s : State)
    (b : bool) :
  fold_left (fun (acc : Part000.State * bool) feature =>
               if Part000.nameMatches q feature
               then (Part000.setSelectedBounds (Some (getBounds feature))
                       (fst acc), true)
               else acc) fs (toPart000 s, b)
  = (toPart000 (fst (fold_left (searchStep q) fs (s, b))),
     snd (fold_left (searchStep q) fs (s, b))).
Proof.
  revert s b. induction fs as [|f fs IH]; intros s b; [reflexivity|].
  simpl. unfold searchStep at 2 4.
  replace (Part000.nameMatches q f) with (nameMatches q f)
    by (unfold Part000.nameMatches, nameMatches, prop;
        destruct (properties f); reflexivity).
  destruct (nameMatches q f); [|apply IH].
  apply (IH (setSelectedBounds (Some (getBounds f)) s) true).
Qed.

(** On the state the two revisions share, the search of the earlier one
    ends as the search of [src/App.js] does. *)
Lemma part000_handleSearch (s : State) :
  Part000.handleSearch locations (toPart000 s)
  = (r <- handleSearch locations s ;; Ok (toPart000 (fst r), snd r)).
Proof.
  unfold Part000.handleSearch, handleSearch, currentLocations.
  replace (Part000.filteredLocations locations (Part000.year (toPart000 s))
             (Part000.yearFilterEnabled (toPart000 s)))
    with (filteredLocations locations (year s) (yearFilterEnabled s)).
  - destruct (features_array
                (filteredLocations locations (year s) (yearFilterEnabled s)))
      as [fs|]; [|reflexivity].
    simpl. rewrite part000_search_loop.
    destruct (fold_left (searchStep (searchQuery s)) fs (s, false)).
    reflexivity.
  - unfold Part000.filteredLocations, filteredLocations. simpl.
    destruct (features locations) as [fs|]; [|reflexivity].
    do 2 f_equal. apply filter_ext. intros f.
    unfold keepFeature, yearParsed, truthy.
    destruct (negb (yearFilterEnabled s)); [reflexivity|].
    destruct (prop date f) as [d|]; [|reflexivity].
    destruct (negb (d =? "")%string); reflexivity.
Qed.
End RevisionProperties.

(** ** The owner list and the highlight *)

Section HighlightProperties.
Context `{Host}.
Variable locations : FeatureCollection.

(** While the owner list is hidden nothing is highlighted: an owner can
    only be picked from the open list, and closing the list clears the
    highlight. *)
Lemma hidden_list_no_highlight (s : State) :
  reachable locations s -> showOwners s = false -> highlightedOwner s = None.
Proof.
  induction 1 as [|s e s' notices Hreach IH Hrendered Hstep];
    [reflexivity|].
  destruct e; simpl in Hstep, Hrendered;
    try (injection Hstep as <- <-; exact IH).
  - apply handleSearch_cases in Hstep
      as (fs & _ & [(_ & -> & _) | (m & _ & _ & -> & _)]); exact IH.
  - injection Hstep as <- <-.
    destruct (showOwners s) eqn:Hshown; simpl; [reflexivity|discriminate].
  - injection Hstep as <- <-. simpl.
    destruct Hrendered as [Hshown _]. rewrite Hshown. discriminate.
Qed.

(** C8.  In every state, a click on the header of the owner list that
    finds the list shown hides it and sets [highlightedOwner] to none, and
    the click that shows the list again finds nothing highlighted: what
    was highlighted does not come back.  A click that finds the list
    hidden shows it and leaves [highlightedOwner] as it is, which in every
    state of a session is none. *)
Theorem owners_header_click_highlight (s : State) :
  exists s',
    handle locations s OwnersHeaderClick = Ok (s', []) /\
    (showOwners s = true ->
     showOwners s' = false /\ highlightedOwner s' = None /\
     exists s'',
       handle locations s' OwnersHeaderClick = Ok (s'', []) /\
       showOwners s'' = true /\ highlightedOwner s'' = None) /\
    (showOwners s = false ->
     showOwners s' = true /\ highlightedOwner s' = highlightedOwner s /\
     (reachable locations s -> highlightedOwner s' = None)).
Proof.
  eexists. split; [reflexivity|]. split.
  - intros ->. cbn [negb]. split; [reflexivity|]. split; [reflexivity|].
    eexists. split; [reflexivity|]. split; reflexivity.
  - intros Hhidden. rewrite Hhidden. cbn [negb].
    split; [reflexivity|]. split; [reflexivity|].
    intros Hreach. change (highlightedOwner s = None).
    now apply hidden_list_no_highlight.
Qed.
End HighlightProperties.

(** ** The style callback *)

Lemma strictEquals_iff (a b : option string) : strictEquals a b = true <-> a = b.
Proof.
  destruct a as [x|], b as [y|]; simpl;
    try (split; [discriminate|congruence]); [|tauto].
  rewrite String.eqb_eq. split; congruence.
Qed.

(** C9.  Two features that agree on whether their owner is the highlighted
    owner get the same style record, whatever else they differ in (and
    while no owner is highlighted every feature gets the same one). *)
Theorem style_depends_on_highlight_only (highlightedOwner : option string)
    (f1 f2 : Feature) :
  (truthy highlightedOwner = true ->
   (prop owner f1 = highlightedOwner <-> prop owner f2 = highlightedOwner)) ->
  style highlightedOwner f1 = style highlightedOwner f2.
Proof.
  intros Hagree. unfold style.
  destruct (truthy highlightedOwner); [|reflexivity].
  specialize (Hagree eq_refl).
  assert (E : strictEquals (prop owner f1) highlightedOwner
              = strictEquals (prop owner f2) highlightedOwner).
  { destruct (strictEquals (prop owner f1) highlightedOwner) eqn:E1,
             (strictEquals (prop owner f2) highlightedOwner) eqn:E2;
      try reflexivity.
    - apply strictEquals_iff, Hagree, strictEquals_iff in E1. congruence.
    - apply strictEquals_iff, Hagree, strictEquals_iff in E2. congruence. }
  now rewrite E.
Qed.

(** ** The order of the numbers and the binary64 difference *)

























(** ** The farm list *)

Lemma StronglySorted_weaken {A : Type} (R R' : A -> A -> Prop) (P : A -> Prop)
    (l : list A) :
  (forall a b, P a -> P b -> R a b -> R' a b) ->
  Forall P l -> StronglySorted R l -> StronglySorted R' l.
Proof.
  intros Himpl HP Hs. induction Hs as [|x l Hs IH Hx]; [constructor|].
  inversion HP as [|? ? Px Pl]; subst.
  constructor; [now apply IH|].
  rewrite Forall_forall in *. intros y Hy. apply Himpl; auto.
Qed.

Section FarmProperties.
Context `{Host}.




End FarmProperties.

(** ** The owner list *)

Section ObjectProperties.

Lemma getOwnProperty_update (o : JsObject) (key k : string) (v : Primitive) :
  getOwnProperty (update o key v) k
  = if (k =? key)%string
    then match getOwnProperty o key with Some _ => Some v | None => None end
    else getOwnProperty o k.
Proof.
  induction o as [|[k0 w] o IH]; simpl.
  - now destruct (k =? key)%string.
  - destruct (String.eqb_spec k0 key) as [->|Hk0]; simpl.
    + rewrite (String.eqb_sym key k). now destruct (k =? key)%string.
    + destruct (String.eqb_spec k0 k) as [->|Hk0'].
      * destruct (String.eqb_spec k key); [congruence|reflexivity].
      * exact IH.
Qed.

Lemma getOwnProperty_app (o : JsObject) (key k : string) (v : Primitive) :
  getOwnProperty (o ++ [(key, v)])%list k
  = match getOwnProperty o k with
    | Some w => Some w
    | None => if (k =? key)%string then Some v else None
    end.
Proof.
  induction o as [|[k0 w] o IH]; simpl.
  - now rewrite String.eqb_sym.
  - now destruct (k0 =? k)%string.
Qed.

Lemma getOwnProperty_set (o : JsObject) (key k : string) (v : Primitive) :
  key <> "__proto__" ->
  getOwnProperty (set o key v) k
  = if (k =? key)%string then Some v else getOwnProperty o k.
Proof.
  intros Hkey. unfold set.
  destruct (String.eqb_spec key "__proto__"); [contradiction|].
  destruct (getOwnProperty o key) eqn:E.
  - rewrite getOwnProperty_update, E. reflexivity.
  - rewrite getOwnProperty_app.
    destruct (String.eqb_spec k key) as [->|Hk]; [now rewrite E|].
    now destruct (getOwnProperty o k).
Qed.

Lemma getOwnProperty_None (o : JsObject) (k : string) :
  getOwnProperty o k = None -> ~ In k (map fst o).
Proof.
  induction o as [|[k0 w] o IH]; simpl; [tauto|].
  destruct (String.eqb_spec k0 k); [discriminate|].
  intros E [Hk|Hk]; [contradiction|]. now apply IH.
Qed.

Lemma getOwnProperty_In (o : JsObject) (k : string) (v : Primitive) :
  NoDup (map fst o) -> In (k, v) o -> getOwnProperty o k = Some v.
Proof.
  induction o as [|[k0 w] o IH]; simpl; [tauto|].
  intros Hnd [Hin|Hin]; inversion Hnd as [|? ? Hk0 Hnd']; subst.
  - injection Hin as -> ->. now rewrite String.eqb_refl.
  - destruct (String.eqb_spec k0 k) as [->|_]; [|now apply IH].
    contradiction Hk0. apply in_map_iff. now exists (k, v).
Qed.

Lemma update_keys (o : JsObject) (key : string) (v : Primitive) :
  map fst (update o key v) = map fst o.
Proof.
  induction o as [|[k0 w] o IH]; simpl; [reflexivity|].
  destruct (k0 =? key)%string; simpl; [reflexivity|now rewrite IH].
Qed.

Lemma set_NoDup (o : JsObject) (key : string) (v : Primitive) :
  NoDup (map fst o) -> NoDup (map fst (set o key v)).
Proof.
  intros Hnd. unfold set.
  destruct (key =? "__proto__")%string; [assumption|].
  destruct (getOwnProperty o key) eqn:E.
  - now rewrite update_keys.
  - rewrite map_app. simpl.
    apply Permutation_NoDup with (key :: map fst o).
    + apply Permutation_cons_append.
    + constructor; [|assumption]. now apply getOwnProperty_None.
Qed.

Lemma filter_split_perm {A : Type} (p : A -> bool) (l : list A) :
  Permutation (filter p l ++ filter (fun x => negb (p x)) l) l.
Proof.
  induction l as [|x l IH]; simpl; [constructor|].
  destruct (p x); simpl.
  - now constructor.
  - apply Permutation_sym, Permutation_cons_app. now apply Permutation_sym.
Qed.

Lemma Object_entries_perm (o : JsObject) : Permutation (Object_entries o) o.
Proof.
  unfold Object_entries.
  apply perm_trans
    with (filter isIndexed o ++ filter (fun e => negb (isIndexed e)) o)%list.
  - apply Permutation_app_tail, Array_sort_perm.
  - apply filter_split_perm.
Qed.

Lemma countSum_perm (l l' : list OwnerCount) :
  Permutation l l' -> countSum l = countSum l'.
Proof.
  induction 1 as [|x l l' _ IH|x y l|l l' l'' _ IH1 _ IH2]; simpl.
  - reflexivity.
  - now rewrite IH.
  - destruct (numeric x) as [n|], (numeric y) as [m|], (countSum l) as [t|];
      try reflexivity.
    f_equal. lia.
  - congruence.
Qed.

Lemma countSum_update (o : JsObject) (key : string) (n t : Z) :
  getOwnProperty o key = Some (JNumber n) ->
  countSum (map toEntry o) = Some t ->
  countSum (map toEntry (update o key (JNumber (n + 1)))) = Some (t + 1).
Proof.
  revert t. induction o as [|[k0 w] o IH]; simpl; intros t; [discriminate|].
  destruct (k0 =? key)%string.
  - intros [= ->]. simpl.
    destruct (countSum (map toEntry o)) as [t0|]; [|discriminate].
    intros [= <-]. f_equal. lia.
  - intros Hget. simpl. destruct (numeric (toEntry (k0, w))) as [m|];
      [|discriminate].
    destruct (countSum (map toEntry o)) as [t0|]; [|discriminate].
    intros [= <-]. rewrite (IH t0 Hget eq_refl). f_equal. lia.
Qed.

Lemma countSum_app (o : JsObject) (key : string) (t : Z) :
  countSum (map toEntry o) = Some t ->
  countSum (map toEntry (o ++ [(key, JNumber 1)])%list) = Some (t + 1).
Proof.
  revert t. induction o as [|[k0 w] o IH]; simpl; intros t.
  - intros [= <-]. reflexivity.
  - destruct (numeric (toEntry (k0, w))) as [m|]; [|discriminate].
    destruct (countSum (map toEntry o)) as [t0|]; [|discriminate].
    intros [= <-]. rewrite (IH t0 eq_refl). f_equal. lia.
Qed.
End ObjectProperties.

Section OwnerProperties.
Context `{Host}.

Lemma ownedBy_app (k : string) (fs : list Feature) (f : Feature) :
  ownedBy k (fs ++ [f])
  = ownedBy k fs + (if strictEquals (prop owner f) (Some k) then 1 else 0).
Proof.
  unfold ownedBy. rewrite filter_app, length_app. simpl.
  destruct (strictEquals (prop owner f) (Some k)); simpl; lia.
Qed.

Lemma ownedBy_nonneg (k : string) (fs : list Feature) : 0 <= ownedBy k fs.
Proof. unfold ownedBy. lia. Qed.

Lemma owned_app (fs : list Feature) (f : Feature) :
  Z.of_nat (List.length (filter owned (fs ++ [f])))
  = Z.of_nat (List.length (filter owned fs)) + (if owned f then 1 else 0).
Proof.
  rewrite filter_app, length_app. simpl. destruct (owned f); simpl; lia.
Qed.

Lemma plain_not_proto (o : string) : plain o -> o <> "__proto__".
Proof. intros Hplain ->. discriminate Hplain. Qed.

(** One turn of the counting loop, on a record whose owner text, if any,
    is the name of no inherited property. *)
Lemma countOwner_counted (o : JsObject) (fs : list Feature) (f : Feature) :
  (forall k, prop owner f = Some k -> plain k) ->
  counted o fs -> counted (countOwner o f) (fs ++ [f]).
Proof.
  intros Hplain (Hnd & Hget & Hsum). unfold countOwner, counted.
  rewrite owned_app. unfold owned.
  destruct (prop owner f) as [k0|] eqn:Hk0; simpl.
  2:{ split; [assumption|]. split; [|now rewrite Z.add_0_r].
      intros k. rewrite !ownedBy_app, Hk0. simpl. rewrite Z.add_0_r.
      apply Hget. }
  destruct (String.eqb_spec k0 "") as [->|Hne]; simpl.
  - split; [assumption|]. split; [|now rewrite Z.add_0_r].
    intros k. rewrite !ownedBy_app, Hk0, Hget. simpl.
    destruct k; [reflexivity|]. now rewrite Z.add_0_r.
  - specialize (Hplain k0 eq_refl).
    pose proof (plain_not_proto k0 Hplain) as Hproto.
    pose proof (ownedBy_nonneg k0 fs) as Hnonneg.
    assert (Hk0' : getOwnProperty o k0
                   = if 0 <? ownedBy k0 fs
                     then Some (JNumber (ownedBy k0 fs)) else None).
    { rewrite Hget. destruct (String.eqb_spec k0 ""); [contradiction|].
      reflexivity. }
    assert (Hval : orZeroPlus1 (get o k0) = JNumber (ownedBy k0 fs + 1)).
    { unfold get. rewrite Hk0'.
      destruct (Z.ltb_spec 0 (ownedBy k0 fs)) as [Hpos|Hzero]; simpl.
      - destruct (Z.eqb_spec (ownedBy k0 fs) 0); [lia|reflexivity].
      - rewrite Hplain. simpl. f_equal. lia. }
    rewrite Hval. split; [now apply set_NoDup|]. split.
    + intros k. rewrite getOwnProperty_set by assumption.
      rewrite !ownedBy_app, Hk0. simpl. rewrite (String.eqb_sym k0 k).
      destruct (String.eqb_spec k k0) as [->|Hk].
      * destruct (String.eqb_spec k0 ""); [contradiction|]. simpl.
        destruct (Z.ltb_spec 0 (ownedBy k0 fs + 1)); [reflexivity|lia].
      * rewrite Hget, Z.add_0_r. reflexivity.
    + unfold set. destruct (String.eqb_spec k0 "__proto__"); [contradiction|].
      rewrite Hk0'.
      destruct (Z.ltb_spec 0 (ownedBy k0 fs)) as [Hpos|Hzero].
      * apply countSum_update; [|assumption].
        rewrite Hk0'. destruct (Z.ltb_spec 0 (ownedBy k0 fs)); [reflexivity|lia].
      * replace (ownedBy k0 fs + 1) with 1 by lia. now apply countSum_app.
Qed.

Lemma ownerCounts_counted (fs : list Feature) :
  (forall f k, In f fs -> prop owner f = Some k -> plain k) ->
  counted (fold_left countOwner fs []) fs.
Proof.
  induction fs as [|f fs IH] using rev_ind; intros Hplain.
  - repeat split; [constructor|].
    intros k. simpl. now rewrite andb_false_r.
  - rewrite fold_left_app. simpl. apply countOwner_counted.
    + intros k. apply Hplain, in_or_app. right. now left.
    + apply IH. intros f0 k Hin. apply Hplain, in_or_app. now left.
Qed.
End OwnerProperties.

Section OwnerClaims.
Context `{Host}.

Lemma getOwnProperty_Some_In (o : JsObject) (k : string) (v : Primitive) :
  getOwnProperty o k = Some v -> In (k, v) o.
Proof.
  induction o as [|[k0 w] o IH]; simpl; [discriminate|].
  destruct (String.eqb_spec k0 k) as [->|_].
  - intros [= ->]. now left.
  - intros E. right. now apply IH.
Qed.

Lemma ownedBy_positive (k : string) (fs : list Feature) :
  0 < ownedBy k fs <-> exists f, In f fs /\ prop owner f = Some k.
Proof.
  unfold ownedBy.
  set (p := fun f => strictEquals (prop owner f) (Some k)).
  split.
  - intros Hpos. destruct (filter p fs) as [|f l] eqn:E; [simpl in Hpos; lia|].
    assert (Hf : In f (filter p fs)) by (rewrite E; now left).
    apply filter_In in Hf as [Hf Hp]. exists f. split; [assumption|].
    now apply strictEquals_iff.
  - intros (f & Hf & Hk).
    assert (Hin : In f (filter p fs)).
    { apply filter_In. split; [assumption|]. now apply strictEquals_iff. }
    destruct (filter p fs); [destruct Hin|simpl; lia].
Qed.

(** The owner list for owner texts that name no inherited property: sorted
    under [localeCompare], one entry per owner text, each count the number
    of records of the collection under that owner, and the counts add up
    to the number of owned records. *)
Lemma uniqueOwners_of_plain_owners (ty : string) (fs : list Feature) :
  consistent localeCompare ->
  (forall f k, In f fs -> prop owner f = Some k -> plain k) ->
  exists entries,
    uniqueOwners (mkCollection ty (Some fs)) = Ok entries /\
    StronglySorted ownersAscending entries /\
    NoDup (map entry_owner entries) /\
    (forall o, In o (map entry_owner entries) <->
               o <> "" /\ exists f, In f fs /\ prop owner f = Some o) /\
    (forall e, In e entries ->
               entry_count e = JNumber (ownedBy (entry_owner e) fs)) /\
    countSum entries = Some (Z.of_nat (List.length (filter owned fs))).
Proof.
  intros [Hanti Htrans] Hplain.
  destruct (ownerCounts_counted fs Hplain) as (Hnd & Hget & Hsum).
  set (o := fold_left countOwner fs []) in *.
  exists (Array_sort byOwner (map toEntry (Object_entries o))).
  assert (Hperm : Permutation (Array_sort byOwner (map toEntry (Object_entries o)))
                              (map toEntry o)).
  { apply perm_trans with (map toEntry (Object_entries o)).
    - apply Array_sort_perm.
    - apply Permutation_map, Object_entries_perm. }
  assert (Hkeys : map entry_owner (map toEntry o) = map fst o)
    by (rewrite map_map; reflexivity).
  split; [reflexivity|]. split; [|split; [|split; [|split]]].
  - apply StronglySorted_weaken with (R := notAfter byOwner) (P := fun _ => True).
    + intros a b _ _. unfold notAfter, byOwner, ownersAscending.
      change 0%Q with (inject_Z 0). now rewrite <- Zle_Qle.
    + apply Forall_forall. auto.
    + apply Array_sort_sorted with (P := fun _ => True).
      * intros a b _ _. unfold byOwner.
        change 0%Q with (inject_Z 0). rewrite <- !Zlt_Qlt. apply Hanti.
      * intros a b c _ _ _. unfold notAfter, byOwner.
        change 0%Q with (inject_Z 0). rewrite <- !Zle_Qle. apply Htrans.
      * apply Forall_forall. auto.
  - apply Permutation_NoDup with (map entry_owner (map toEntry o)).
    + apply Permutation_map, Permutation_sym, Hperm.
    + now rewrite Hkeys.
  - intros k.
    assert (Hin : In k (map entry_owner
                          (Array_sort byOwner (map toEntry (Object_entries o))))
                  <-> In k (map fst o)).
    { rewrite <- Hkeys. split; apply Permutation_in, Permutation_map;
        [exact Hperm|now apply Permutation_sym]. }
    rewrite Hin, <- ownedBy_positive. specialize (Hget k).
    destruct (string_dec k "") as [Hempty|Hne].
    + subst k. simpl in Hget. apply getOwnProperty_None in Hget.
      split; [contradiction|]. now intros [Hne _].
    + apply String.eqb_neq in Hne as Hneb. rewrite Hneb in Hget.
      simpl in Hget. split.
      * intros Hk. split; [assumption|].
        destruct (Z.ltb_spec 0 (ownedBy k fs)); [assumption|].
        now apply getOwnProperty_None in Hget.
      * intros [_ Hpos].
        destruct (Z.ltb_spec 0 (ownedBy k fs)); [|lia].
        apply getOwnProperty_Some_In in Hget.
        apply in_map_iff. now exists (k, JNumber (ownedBy k fs)).
  - intros e He. apply (Permutation_in _ Hperm) in He.
    apply in_map_iff in He as ([k v] & <- & Hkv). simpl.
    apply getOwnProperty_In in Hkv; [|assumption].
    rewrite Hget in Hkv.
    destruct (negb (k =? "")%string && (0 <? ownedBy k fs))%bool;
      [|discriminate].
    now injection Hkv as <-.
  - now rewrite (countSum_perm _ _ Hperm).
Qed.

(** C5, on the owner texts that a plain object inherits a property for.
    A record owned by [__proto__] leaves no entry in the owner list, so the
    counts add up to 0 for one owned record; two records owned by
    [toString] leave one entry whose count is not a number but a text, so
    the counts have no sum. *)
Theorem uniqueOwners_inherited_owner_names (ty : string) (g : Geometry) :
  (uniqueOwners
     (mkCollection ty
        (Some [mkFeature g (Some (mkProperties None (Some "__proto__") None))]))
   = Ok [] /\
   countSum [] = Some 0 /\
   List.length
     (filter owned
        [mkFeature g (Some (mkProperties None (Some "__proto__") None))])
   = 1%nat) /\
  (uniqueOwners
     (mkCollection ty
        (Some [mkFeature g (Some (mkProperties None (Some "toString") None));
               mkFeature g (Some (mkProperties None (Some "toString") None))]))
   = Ok [mkOwnerCount "toString"
           (JString ((nativeFunction "toString" ++ "1") ++ "1"))] /\
   countSum [mkOwnerCount "toString"
               (JString ((nativeFunction "toString" ++ "1") ++ "1"))] = None /\
   List.length
     (filter owned
        [mkFeature g (Some (mkProperties None (Some "toString") None));
         mkFeature g (Some (mkProperties None (Some "toString") None))])
   = 2%nat).
Proof.
  split; (split; [|split; reflexivity]); [reflexivity|].
  unfold uniqueOwners. simpl.
  destruct (nativeFunction "toString"); reflexivity.
Qed.
End OwnerClaims.

(** * Further properties of the component *)

(** ** The filter and the map layer *)

Lemma filter_narrows {A : Type} (p q : A -> bool) (l : list A) :
  (forall x, p x = true -> q x = true) ->
  filter p (filter q l) = filter p l.
Proof.
  intros Hpq. induction l as [|x l IH]; [reflexivity|]. simpl.
  destruct (q x) eqn:Hq; simpl.
  - now rewrite IH.
  - destruct (p x) eqn:Hp; [|exact IH].
    apply Hpq in Hp. congruence.
Qed.

Section LayerProperties.
Context `{Host}.
Variable locations : FeatureCollection.

Lemma keepFeature_monotone (y1 y2 : Z) (f : Feature) :
  y1 <= y2 -> keepFeature y1 true f = true -> keepFeature y2 true f = true.
Proof.
  unfold keepFeature. simpl. intros Hle.
  destruct (yearParsed f) as [y|]; [|discriminate].
  rewrite !Z.leb_le. lia.
Qed.

Lemma filteredLocations_disabled_any_year (y1 y2 : Z) :
  filteredLocations locations y1 false = filteredLocations locations y2 false.
Proof.
  unfold filteredLocations.
  destruct (features locations) as [fs|]; reflexivity.
Qed.

(** Lowering the threshold only removes records: the collection at a year
    is the collection at any later year filtered again, so each of its
    records is in the later one. *)
Theorem filteredLocations_narrows (y1 y2 : Z) :
  y1 <= y2 ->
  filteredLocations (filteredLocations locations y2 true) y1 true
    = filteredLocations locations y1 true /\
  (forall fs1 fs2 f,
     features (filteredLocations locations y1 true) = Some fs1 ->
     features (filteredLocations locations y2 true) = Some fs2 ->
     In f fs1 -> In f fs2).
Proof.
  intros Hle. unfold filteredLocations.
  destruct (features locations) as [fs|] eqn:Hfs; simpl.
  - split.
    + do 2 f_equal. apply filter_narrows. intros f.
      now apply keepFeature_monotone.
    + intros fs1 fs2 f [= <-] [= <-] Hin.
      apply filter_In in Hin as [Hin Hkeep]. apply filter_In.
      split; [assumption|]. now apply keepFeature_monotone with y1.
  - rewrite Hfs. split; [reflexivity|]. congruence.
Qed.

(** The key of the map layer decides its data: two states with the same
    key show the same collection.  In particular the year is ignored while
    the filter is off. *)
Theorem geoJsonKey_decides_collection (s1 s2 : State) :
  geoJsonKey s1 = geoJsonKey s2 ->
  currentLocations locations s1 = currentLocations locations s2.
Proof.
  unfold geoJsonKey, currentLocations.
  destruct (yearFilterEnabled s1), (yearFilterEnabled s2);
    try discriminate.
  - now intros [= ->].
  - intros _. apply filteredLocations_disabled_any_year.
Qed.

(** Only the two controls of the year section change what is shown: every
    other action leaves the year, the flag, the filtered collection and the
    key of the map layer as they were. *)
Theorem handle_keeps_collection (s s' : State) (e : Event)
    (notices : list Notice) :
  handle locations s e = Ok (s', notices) ->
  e <> YearHeaderClick -> (forall value, e <> YearChange value) ->
  year s' = year s /\ yearFilterEnabled s' = yearFilterEnabled s /\
  currentLocations locations s' = currentLocations locations s /\
  geoJsonKey s' = geoJsonKey s.
Proof.
  intros Hstep Hheader Hrange.
  assert (Hsame : year s' = year s /\ yearFilterEnabled s' = yearFilterEnabled s).
  { destruct e; simpl in Hstep;
      try (injection Hstep as <- <-; try destruct (showOwners s); now split).
    - apply handleSearch_cases in Hstep
        as (fs & _ & [(_ & -> & _) | (m & _ & _ & -> & _)]); now split.
    - now contradiction (Hrange value). }
  destruct Hsame as [Hyear Hflag].
  unfold currentLocations, geoJsonKey. now rewrite Hyear, Hflag.
Qed.

(** A store without a feature array goes through the filter as it is, and
    then every list derived from it and the search raise a [TypeError]. *)
Theorem missing_features_raise (s : State) (rankBySize : bool) :
  features locations = None ->
  currentLocations locations s = locations /\
  uniqueOwners (currentLocations locations s) = TypeError /\
  uniqueFarms (currentLocations locations s) rankBySize = TypeError /\
  handle locations s Submit = TypeError.
Proof.
  intros Hnone.
  assert (Hsame : currentLocations locations s = locations).
  { unfold currentLocations, filteredLocations. now rewrite Hnone. }
  split; [exact Hsame|].
  unfold uniqueOwners, uniqueFarms, handle, handleSearch, features_array.
  rewrite Hsame, Hnone. auto.
Qed.

(** On a store with no record the owner list and the farm list are empty
    and every search ends in the notice, the state unchanged. *)
Theorem empty_store (s : State) (rankBySize : bool) :
  features locations = Some [] ->
  uniqueOwners (currentLocations locations s) = Ok [] /\
  uniqueFarms (currentLocations locations s) rankBySize = Ok [] /\
  handle locations s Submit = Ok (s, [alert "Region not found!"]).
Proof.
  intros Hempty.
  assert (Hcur : currentLocations locations s
                 = mkCollection "FeatureCollection" (Some [])).
  { unfold currentLocations, filteredLocations. now rewrite Hempty. }
  unfold uniqueOwners, uniqueFarms, handle, handleSearch, features_array.
  rewrite Hcur. simpl. now destruct rankBySize.
Qed.
End LayerProperties.

(** ** The handlers *)

Section HandlerProperties.
Context `{Host}.
Variable locations : FeatureCollection.

Lemma filteredLocations_from_store (year : Z) (yearFilterEnabled : bool)
    (fs : list Feature) :
  features (filteredLocations locations year yearFilterEnabled) = Some fs ->
  exists fs0, features locations = Some fs0 /\ incl fs fs0.
Proof.
  unfold filteredLocations.
  destruct (features locations) as [fs0|] eqn:Hfs0; simpl.
  - intros [= <-]. exists fs0. split; [reflexivity|].
    intros f Hf. now apply filter_In in Hf.
  - congruence.
Qed.

(** A second click on the header of the year section, or of the farm
    section, undoes the first: the state is the one before the two clicks,
    the year included. *)
Theorem section_headers_toggle (s : State) :
  (exists s1, handle locations s YearHeaderClick = Ok (s1, []) /\
              handle locations s1 YearHeaderClick = Ok (s, [])) /\
  (exists s1, handle locations s FarmsHeaderClick = Ok (s1, []) /\
              handle locations s1 FarmsHeaderClick = Ok (s, [])).
Proof.
  split; eexists; (split; [reflexivity|]); simpl;
    destruct s; unfold setYearFilterEnabled, setShowFarms; simpl;
    now rewrite negb_involutive.
Qed.

(** Two clicks on the header of the owner list leave the list as it was
    shown and the highlight cleared; in a state of a session whose list is
    hidden they change nothing at all. *)
Theorem owners_header_double_click (s : State) :
  reachable locations s ->
  exists s1,
    handle locations s OwnersHeaderClick = Ok (s1, []) /\
    handle locations s1 OwnersHeaderClick
      = Ok (setHighlightedOwner None s, []) /\
    (showOwners s = false -> setHighlightedOwner None s = s).
Proof.
  intros Hreach. eexists. split; [reflexivity|]. split.
  - simpl. destruct s as [q b y en shown farms h r]. simpl.
    destruct shown; reflexivity.
  - intros Hhidden.
    pose proof (hidden_list_no_highlight locations s Hreach Hhidden) as Hnone.
    destruct s. simpl in *. now subst.
Qed.

(** Submitting the form again changes nothing more: the second search ends
    in the state and with the notices of the first. *)
Theorem search_twice (s s' : State) (notices : list Notice) :
  handle locations s Submit = Ok (s', notices) ->
  handle locations s' Submit = Ok (s', notices).
Proof.
  simpl. intros Hstep.
  destruct (features (currentLocations locations s)) as [fs|] eqn:Hfs.
  - destruct (filter (nameMatches (searchQuery s)) fs) as [|m0 ms0] eqn:Hms.
    + rewrite (handleSearch_not_found locations s fs Hfs Hms) in Hstep.
      injection Hstep as <- <-.
      now apply handleSearch_not_found with fs.
    + destruct (@exists_last _ (m0 :: ms0)) as (ms & m & Hlast);
        [discriminate|].
      rewrite Hlast in Hms.
      rewrite (handleSearch_found locations s fs ms m Hfs Hms) in Hstep.
      injection Hstep as <- <-.
      now rewrite (handleSearch_found locations
                     (setSelectedBounds (Some (getBounds m)) s) fs ms m Hfs Hms).
  - unfold handleSearch, features_array in Hstep. rewrite Hfs in Hstep.
    discriminate.
Qed.

Lemma bounds_of_store_record (s : State) :
  reachable locations s ->
  selectedBounds s = None \/
  exists fs f, features locations = Some fs /\ In f fs /\
               selectedBounds s = Some (getBounds f).
Proof.
  induction 1 as [|s e s' notices Hreach IH Hrendered Hstep];
    [now left|].
  destruct e; simpl in Hstep;
    try (injection Hstep as <- <-; try destruct (showOwners s); exact IH).
  apply handleSearch_cases in Hstep
    as (fs & Hfs & [(_ & -> & _) | (m & Hm & _ & -> & _)]); [exact IH|].
  right. apply filteredLocations_from_store in Hfs as (fs0 & Hfs0 & Hincl).
  exists fs0, m. auto.
Qed.

Lemma unfound_no_bounds (s : State) :
  unfound locations s -> selectedBounds s = None.
Proof.
  induction 1 as [|s e s' notices Hunfound IH Hrendered Hstep Hnotice];
    [reflexivity|].
  destruct e; simpl in Hstep;
    try (injection Hstep as <- <-; try destruct (showOwners s); exact IH).
  apply handleSearch_cases in Hstep
    as (fs & _ & [(_ & -> & _) | (m & _ & _ & _ & ->)]); [exact IH|].
  now destruct Hnotice.
Qed.

(** In a session the map is asked for no [fitBounds] as long as no search
    has found a record, and the search that finds one asks for the bounds
    of a record it matched; every request carries the bounds of some
    record of the store, with padding [[50, 50]]; and no handler withdraws
    a request once made. *)
Theorem map_fits_store_records (s : State) :
  reachable locations s ->
  (unfound locations s -> mapCalls s = []) /\
  (forall s', handle locations s Submit = Ok (s', []) ->
     exists fs f,
       features (currentLocations locations s) = Some fs /\ In f fs /\
       nameMatches (searchQuery s) f = true /\
       mapCalls s' = [fitBounds (getBounds f) (50, 50)]) /\
  (forall call, In call (mapCalls s) ->
     exists fs f, features locations = Some fs /\ In f fs /\
                  call = fitBounds (getBounds f) (50, 50)) /\
  (forall e s' notices,
     handle locations s e = Ok (s', notices) ->
     mapCalls s <> [] -> mapCalls s' <> []).
Proof.
  intros Hreach. split; [|split; [|split]].
  - intros Hunfound. unfold mapCalls.
    now rewrite (unfound_no_bounds s Hunfound).
  - intros s' Hstep. simpl in Hstep.
    apply handleSearch_cases in Hstep
      as (fs & Hfs & [(_ & _ & Hnotice) | (m & Hm & Hmatch & -> & _)]);
      [discriminate|].
    now exists fs, m.
  - intros call Hcall. unfold mapCalls in Hcall.
    destruct (bounds_of_store_record s Hreach) as [Hnone | (fs & f & Hfs & Hf & Hb)].
    + rewrite Hnone in Hcall. destruct Hcall.
    + rewrite Hb in Hcall. destruct Hcall as [<- | []]. now exists fs, f.
  - intros e s' notices Hstep. unfold mapCalls.
    destruct e; simpl in Hstep;
      try (injection Hstep as <- <-; try destruct (showOwners s);
           simpl; tauto).
    apply handleSearch_cases in Hstep
      as (fs & _ & [(_ & -> & _) | (m & _ & _ & -> & _)]); [tauto|].
    simpl. discriminate.
Qed.

(** The earlier revision behaves as [src/App.js] does on the state they
    share: an action on the search field, the form, the year filter or the
    range control steps it to the same state with the same notices, and
    every other action of [src/App.js] leaves that part of the state alone. *)
Theorem part000_simulates (s s' : State) (e : Event) (notices : list Notice) :
  handle locations s e = Ok (s', notices) ->
  match counterpart s e with
  | Some e' =>
      Part000.handle locations (toPart000 s) e' = Ok (toPart000 s', notices)
  | None => toPart000 s' = toPart000 s /\ notices = []
  end.
Proof.
  intros Hstep. destruct e; simpl in *;
    try (injection Hstep as <- <-; try destruct (showOwners s);
         now auto).
  rewrite part000_handleSearch, Hstep. reflexivity.
Qed.
End HandlerProperties.

(** ** The owner list, for every collection *)

Section OwnerListProperties.
Context `{Host}.

Lemma set_keys (o : JsObject) (key k : string) (v : Primitive) :
  In k (map fst (set o key v)) <->
  (key <> "__proto__" /\ k = key) \/ In k (map fst o).
Proof.
  unfold set. destruct (String.eqb_spec key "__proto__") as [->|Hkey].
  - split; [now right|]. now intros [[Hne _]|Hin].
  - destruct (getOwnProperty o key) as [w|] eqn:Hget.
    + rewrite update_keys. split; [now right|].
      intros [[_ ->]|Hin]; [|assumption].
      apply getOwnProperty_Some_In in Hget.
      apply in_map_iff. now exists (key, w).
    + rewrite map_app, in_app_iff. simpl. split.
      * intros [Hin|[<-|[]]]; [now right|now left].
      * intros [[_ ->]|Hin]; [right; now left|now left].
  Qed.

Lemma ownerCounts_keys (fs : list Feature) :
  NoDup (map fst (fold_left countOwner fs [])) /\
  (forall k, In k (map fst (fold_left countOwner fs [])) <->
     k <> "" /\ k <> "__proto__" /\
     exists f, In f fs /\ prop owner f = Some k).
Proof.
  induction fs as [|f fs [IHnd IHkeys]] using rev_ind.
  - split; [constructor|]. intros k. simpl. split; [tauto|].
    now intros (_ & _ & f & [] & _).
  - rewrite fold_left_app. simpl.
    set (o := fold_left countOwner fs []) in *.
    assert (Hlast : forall k,
              (exists f0, In f0 (fs ++ [f]) /\ prop owner f0 = Some k) <->
              (exists f0, In f0 fs /\ prop owner f0 = Some k) \/
              prop owner f = Some k).
    { intros k. split.
      - intros (f0 & Hin & Hk). apply in_app_iff in Hin as [Hin|[<-|[]]];
          [left; now exists f0|now right].
      - intros [(f0 & Hin & Hk)|Hk].
        + exists f0. split; [apply in_app_iff; now left|assumption].
        + exists f. split; [apply in_app_iff; right; now left|assumption]. }
    unfold countOwner.
    destruct (prop owner f) as [k0|] eqn:Hk0; simpl.
    2:{ split; [assumption|]. intros k. rewrite IHkeys, Hlast.
        intuition congruence. }
    destruct (String.eqb_spec k0 "") as [->|Hne]; simpl.
    + split; [assumption|]. intros k. rewrite IHkeys, Hlast.
      intuition congruence.
    + split; [now apply set_NoDup|].
      intros k. rewrite set_keys, IHkeys, Hlast. split.
      * intros [[Hproto ->]|(Hk1 & Hk2 & Hex)]; auto.
      * intros (Hk1 & Hk2 & [Hex|[= ->]]); auto.
Qed.

Lemma uniqueOwners_keys (c : FeatureCollection) (fs : list Feature)
    (entries : list OwnerCount) :
  features c = Some fs -> uniqueOwners c = Ok entries ->
  NoDup (map entry_owner entries) /\
  (forall o, In o (map entry_owner entries) <->
     o <> "" /\ o <> "__proto__" /\
     exists f, In f fs /\ prop owner f = Some o).
Proof.
  intros Hfs. unfold uniqueOwners, features_array. rewrite Hfs. simpl.
  intros [= <-].
  destruct (ownerCounts_keys fs) as [Hnd Hkeys].
  set (o := fold_left countOwner fs []) in *.
  assert (Hperm : Permutation
            (map entry_owner (Array_sort byOwner (map toEntry (Object_entries o))))
            (map fst o)).
  { replace (map fst o) with (map entry_owner (map toEntry o))
      by (rewrite map_map; reflexivity).
    apply Permutation_map.
    apply perm_trans with (map toEntry (Object_entries o)).
    - apply Array_sort_perm.
    - apply Permutation_map, Object_entries_perm. }
  split.
  - apply Permutation_NoDup with (map fst o);
      [now apply Permutation_sym|assumption].
  - intros k. rewrite <- Hkeys. split; apply Permutation_in;
      [assumption|now apply Permutation_sym].
Qed.

Lemma style_highlighted (h : option string) (f : Feature) :
  highlighted (style h f) <-> truthy h = true /\ prop owner f = h.
Proof.
  unfold highlighted, style. rewrite <- strictEquals_iff.
  destruct (truthy h), (strictEquals (prop owner f) h); simpl;
    intuition discriminate.
Qed.

(** Whatever the owner texts, the owner list names no owner twice, and it
    names exactly the non-empty owner texts of the records of the
    collection, [__proto__] excepted. *)
Theorem uniqueOwners_lists_each_owner_once (ty : string) (fs : list Feature) :
  exists entries,
    uniqueOwners (mkCollection ty (Some fs)) = Ok entries /\
    NoDup (map entry_owner entries) /\
    (forall o, In o (map entry_owner entries) <->
       o <> "" /\ o <> "__proto__" /\
       exists f, In f fs /\ prop owner f = Some o).
Proof.
  eexists. split; [reflexivity|].
  now apply uniqueOwners_keys with (c := mkCollection ty (Some fs)).
Qed.

(** Whatever the owner texts, the owner list ascends under a consistent
    [localeCompare]. *)
Theorem uniqueOwners_sorted (ty : string) (fs : list Feature) :
  consistent localeCompare ->
  exists entries,
    uniqueOwners (mkCollection ty (Some fs)) = Ok entries /\
    StronglySorted ownersAscending entries.
Proof.
  intros [Hanti Htrans]. eexists. split; [reflexivity|].
  apply StronglySorted_weaken with (R := notAfter byOwner) (P := fun _ => True).
  - intros a b _ _. unfold notAfter, byOwner, ownersAscending.
    change 0%Q with (inject_Z 0). now rewrite <- Zle_Qle.
  - apply Forall_forall. auto.
  - apply Array_sort_sorted with (P := fun _ => True).
    + intros a b _ _. unfold byOwner.
      change 0%Q with (inject_Z 0). rewrite <- !Zlt_Qlt. apply Hanti.
    + intros a b c _ _ _. unfold notAfter, byOwner.
      change 0%Q with (inject_Z 0). rewrite <- !Zle_Qle. apply Htrans.
    + apply Forall_forall. auto.
Qed.

(** A click on an item of the owner list highlights, on the map, the
    features of that owner and no other, and at least one feature of the
    collection shown is among them. *)
Theorem owner_click_highlights (locations : FeatureCollection)
    (s s' : State) (o : string) (notices : list Notice) :
  rendered locations s (OwnerClick o) ->
  handle locations s (OwnerClick o) = Ok (s', notices) ->
  (forall f, highlighted (style (highlightedOwner s') f) <->
             prop owner f = Some o) /\
  (exists fs f, features (currentLocations locations s') = Some fs /\
                In f fs /\ highlighted (style (highlightedOwner s') f)).
Proof.
  intros (_ & entries & Hentries & Ho) Hstep.
  simpl in Hstep. injection Hstep as <- <-. simpl.
  destruct (features (currentLocations locations s)) as [fs|] eqn:Hfs.
  - destruct (uniqueOwners_keys _ fs entries Hfs Hentries) as [_ Hkeys].
    destruct (proj1 (Hkeys o) Ho) as (Hne & _ & f & Hf & Hfo).
    assert (Htruthy : truthy (Some o) = true).
    { simpl. destruct (String.eqb_spec o ""); [contradiction|reflexivity]. }
    split.
    + intros f0. rewrite style_highlighted. tauto.
    + exists fs, f. split; [first [reflexivity|exact Hfs]|].
      split; [assumption|]. apply style_highlighted. now split.
  - unfold uniqueOwners, features_array in Hentries.
    rewrite Hfs in Hentries. discriminate.
Qed.

(** The item of the owner list set in bold and the features drawn
    highlighted go together: for an entry of the list and a feature of its
    owner, the item is bold exactly when the feature is highlighted. *)
Theorem bold_item_matches_map (c : FeatureCollection) (fs : list Feature)
    (entries : list OwnerCount) (h : option string) (e : OwnerCount)
    (f : Feature) :
  features c = Some fs -> uniqueOwners c = Ok entries ->
  In e entries -> prop owner f = Some (entry_owner e) ->
  (fontWeight (ownerItemStyle h e) = "bold" <-> highlighted (style h f)).
Proof.
  intros Hfs Hentries He Hf.
  destruct (uniqueOwners_keys c fs entries Hfs Hentries) as [_ Hkeys].
  assert (Hne : entry_owner e <> "").
  { apply (Hkeys (entry_owner e)). now apply in_map. }
  rewrite style_highlighted, Hf. unfold ownerItemStyle. cbn [fontWeight].
  destruct (strictEquals (Some (entry_owner e)) h) eqn:E.
  - apply strictEquals_iff in E. subst h. simpl.
    destruct (String.eqb_spec (entry_owner e) ""); [contradiction|].
    simpl. tauto.
  - split; [discriminate|]. intros [_ Heq].
    apply strictEquals_iff in Heq. congruence.
Qed.
End OwnerListProperties.

(** ** The farm list, the popups and the search *)

Section StableSorting.
Context {A : Type} (comparefn : A -> A -> Q) (p : A -> bool).

Lemma insert_stable (x : A) (l : list A) :
  (p x = true -> forall y, In y l -> p y = true -> (comparefn x y <= 0)%Q) ->
  filter p (insert comparefn x l) = filter p (x :: l).
Proof.
  induction l as [|y l IH]; intros Hties; [reflexivity|].
  cbn [insert].
  destruct (Qle_bool (comparefn x y) 0) eqn:E; [reflexivity|].
  assert (IH' : filter p (insert comparefn x l) = filter p (x :: l)).
  { apply IH. intros Hx z Hz. apply Hties; [assumption|now right]. }
  cbn [filter] in *. rewrite IH'.
  destruct (p x) eqn:Hx; [|reflexivity].
  destruct (p y) eqn:Hy; [|reflexivity].
  assert (Hle : (comparefn x y <= 0)%Q)
    by (apply Hties; [reflexivity|now left|assumption]).
  apply Qle_bool_iff in Hle. congruence.
Qed.

(** Elements that the comparator does not tell apart keep their order. *)
Lemma Array_sort_stable (l : list A) :
  (forall x y, In x l -> In y l -> p x = true -> p y = true ->
               (comparefn x y <= 0)%Q) ->
  filter p (Array_sort comparefn l) = filter p l.
Proof.
  induction l as [|x l IH]; intros Hties; [reflexivity|].
  cbn [Array_sort]. rewrite insert_stable.
  - cbn [filter]. rewrite IH; [reflexivity|].
    intros a b Ha Hb. apply Hties; now right.
  - intros Hx y Hy. apply Hties; [now left| |assumption].
    right. apply Permutation_in with (Array_sort comparefn l);
      [apply Array_sort_perm|assumption].
Qed.
End StableSorting.

Section FarmListProperties.
Context `{Host}.

Lemma popup_named (f : Feature) : popup f <> None <-> named f = true.
Proof.
  unfold popup, named. destruct (prop name f) as [n|]; [|now split].
  destruct (truthy (Some n)); split; congruence.
Qed.

Lemma uniqueFarms_perm (ty : string) (fs : list Feature) (rankBySize : bool) :
  exists farms,
    uniqueFarms (mkCollection ty (Some fs)) rankBySize = Ok farms /\
    Permutation farms (map toFarm (filter named fs)).
Proof.
  eexists. split; [reflexivity|].
  replace (filter (fun f => truthy (farm_name f)) (map toFarm fs))
    with (map toFarm (filter named fs)).
  - destruct rankBySize; apply Array_sort_perm.
  - clear. induction fs as [|f fs IH]; [reflexivity|].
    simpl. unfold named at 1. change (farm_name (toFarm f)) with (prop name f).
    destruct (truthy (prop name f)); simpl; now rewrite IH.
Qed.

(** The farm list and the popups go together: a record of the collection
    has its entry in the farm list exactly when a popup is bound to its
    layer, and the list is as long as there are such records. *)
Theorem farm_list_matches_popups (ty : string) (fs : list Feature)
    (rankBySize : bool) :
  exists farms,
    uniqueFarms (mkCollection ty (Some fs)) rankBySize = Ok farms /\
    (forall f, In f fs -> (In (toFarm f) farms <-> popup f <> None)) /\
    List.length farms = List.length (filter hasPopup fs).
Proof.
  destruct (uniqueFarms_perm ty fs rankBySize) as (farms & Hfarms & Hperm).
  exists farms. split; [assumption|]. split.
  - intros f Hf. rewrite popup_named. split.
    + intros Hin. apply (Permutation_in _ Hperm) in Hin.
      apply in_map_iff in Hin as (f' & Heq & Hf').
      apply filter_In in Hf' as [_ Hnamed]. unfold named in *.
      change (prop name f) with (farm_name (toFarm f)). rewrite <- Heq.
      exact Hnamed.
    + intros Hnamed. apply (Permutation_in _ (Permutation_sym Hperm)).
      apply in_map, filter_In. now split.
  - rewrite (Permutation_length Hperm), length_map. f_equal.
    apply filter_ext. intros f. unfold hasPopup.
    destruct (popup f) eqn:E.
    + apply popup_named. congruence.
    + destruct (named f) eqn:Hn; [|reflexivity].
      apply popup_named in Hn. congruence.
Qed.

(** The ranking mode only reorders the farm list: the list by size and the
    list by name hold the same entries, as often. *)
Theorem rankings_hold_the_same_farms (ty : string) (fs : list Feature) :
  exists bySize byName,
    uniqueFarms (mkCollection ty (Some fs)) true = Ok bySize /\
    uniqueFarms (mkCollection ty (Some fs)) false = Ok byName /\
    Permutation bySize byName.
Proof.
  destruct (uniqueFarms_perm ty fs true) as (l1 & H1 & P1).
  destruct (uniqueFarms_perm ty fs false) as (l2 & H2 & P2).
  exists l1, l2. repeat split; try assumption.
  apply perm_trans with (map toFarm (filter named fs));
    [assumption|now apply Permutation_sym].
Qed.


(** Ranked by name under a consistent [localeCompare], farms of one name
    stay in the order of the store. *)
Theorem equal_names_keep_store_order (ty : string) (fs : list Feature)
    (n : string) :
  consistent localeCompare ->
  exists farms,
    uniqueFarms (mkCollection ty (Some fs)) false = Ok farms /\
    filter (sameName n) farms
    = filter (sameName n) (map toFarm (filter named fs)).
Proof.
  intros [Hanti _]. eexists. split; [reflexivity|].
  replace (map toFarm (filter named fs))
    with (filter (fun f => truthy (farm_name f)) (map toFarm fs)).
  - apply Array_sort_stable. intros x y _ _ Hx Hy.
    unfold sameName in *. apply strictEquals_iff in Hx, Hy.
    unfold byName. rewrite Hx, Hy.
    change 0%Q with (inject_Z 0). rewrite <- Zle_Qle.
    destruct (Z.le_gt_cases (localeCompare n n) 0) as [Hle|Hgt];
      [assumption|].
    pose proof (Hanti n n (proj1 (Z.gt_lt_iff _ _) (Z.lt_gt _ _ Hgt))). lia.
  - clear. induction fs as [|f fs IH]; [reflexivity|].
    simpl. unfold named at 1. change (farm_name (toFarm f)) with (prop name f).
    destruct (truthy (prop name f)); simpl; now rewrite IH.
Qed.

(** A record whose name is the empty text is found by the empty query: the
    search ends without the notice, although the record has no popup and
    no entry in the farm list. *)
Theorem empty_name_found_by_empty_query (locations : FeatureCollection)
    (s : State) (fs : list Feature) (f : Feature) :
  features (currentLocations locations s) = Some fs ->
  In f fs -> prop name f = Some "" -> searchQuery s = "" ->
  (exists s', handle locations s Submit = Ok (s', []) /\
              selectedBounds s' <> None) /\
  popup f = None /\ named f = false.
Proof.
  intros Hfs Hf Hname Hquery. split.
  - assert (Hmatch : In f (filter (nameMatches (searchQuery s)) fs)).
    { apply filter_In. split; [assumption|].
      unfold nameMatches. rewrite Hname, Hquery. apply String.eqb_refl. }
    destruct (filter (nameMatches (searchQuery s)) fs) as [|m0 ms0] eqn:Hms;
      [destruct Hmatch|].
    destruct (@exists_last _ (m0 :: ms0)) as (ms & m & Hlast); [discriminate|].
    rewrite Hlast in Hms.
    exists (setSelectedBounds (Some (getBounds m)) s). split.
    + simpl. now apply handleSearch_found with fs ms.
    + discriminate.
  - unfold popup, named. now rewrite Hname.
Qed.
End FarmListProperties.

Lemma append_assoc (a b c : string) : (a ++ b) ++ c = a ++ (b ++ c).
Proof. induction a as [|x a IH]; simpl; [reflexivity|now rewrite IH]. Qed.

Section PopupProperties.
Context `{Host}.

(** Under the active year filter every popup carries its date line: a
    record that passes the filter has a date text, so its popup ends with
    it. *)
Theorem filtered_popups_show_date (ty : string) (fs kept : list Feature)
    (year : Z) (f : Feature) (text : string) :
  features (filteredLocations (mkCollection ty (Some fs)) year true)
    = Some kept ->
  In f kept -> popup f = Some text ->
  exists d before,
    prop date f = Some d /\ d <> "" /\ text = before ++ "Date: " ++ d.
Proof.
  intros [= <-] Hf Hpopup. apply filter_In in Hf as [_ Hkeep].
  unfold keepFeature, yearParsed in Hkeep. cbv zeta in Hkeep.
  cbn [negb] in Hkeep. unfold popup in Hpopup.
  destruct (prop date f) as [d|]; [|discriminate].
  destruct (truthy (Some d)) eqn:Hd; [|discriminate].
  assert (Hne : d <> "").
  { intros ->. discriminate. }
  destruct (prop name f) as [n|]; [|discriminate].
  destruct (truthy (Some n)); [|discriminate].
  exists d.
  destruct (prop owner f) as [o|]; [destruct (truthy (Some o))|];
    injection Hpopup as <-.
  - exists ("<b>" ++ n ++ "</b><br/>" ++ "Owner: " ++ o ++ "<br/>").
    split; [reflexivity|]. split; [assumption|].
    rewrite !append_assoc. reflexivity.
  - exists ("<b>" ++ n ++ "</b><br/>").
    split; [reflexivity|]. split; [assumption|].
    rewrite !append_assoc. reflexivity.
  - exists ("<b>" ++ n ++ "</b><br/>").
    split; [reflexivity|]. split; [assumption|].
    rewrite !append_assoc. reflexivity.
Qed.
End PopupProperties.

(** * The properties at work on the sample host *)

#[local] Existing Instance Sample.host.

(** The scenarios of the specification, section 8. *)

Example scenario_filter :
  features (filteredLocations Sample.store 1700 true)
  = Some [Sample.goedeHoop; Sample.nieuwland].
Proof. reflexivity. Qed.

Example scenario_owners :
  uniqueOwners (filteredLocations Sample.store 1700 true)
  = Ok [mkOwnerCount "Van Riebeeck" (JNumber 2)].
Proof. reflexivity. Qed.

Example scenario_farms :
  bind (uniqueFarms (filteredLocations Sample.store 1700 true) false)
       (fun farms => Ok (map farm_name farms))
  = Ok [Some "Goede Hoop"; Some "Nieuwland"].
Proof. reflexivity. Qed.

Example scenario_case_insensitive :
  nameMatches "Goede Hoop"
    (Sample.farm (Sample.square (Sample.num 0 1) (Sample.num 0 1) (Sample.num 1 1))
       (Some "goede hoop") None None) = true.
Proof. reflexivity. Qed.

Example scenario_hidden_record :
  handleSearch Sample.store
    (setSearchQuery "Oosthuizen"
       (setYearFilterEnabled true (setYear 1700 initialState)))
  = Ok (setSearchQuery "Oosthuizen"
          (setYearFilterEnabled true (setYear 1700 initialState)),
        [alert "Region not found!"]).
Proof. reflexivity. Qed.

(** Keys that are array indices come first in [Object.entries], in numeric
    order. *)
Example entries_order :
  map fst (Object_entries [("b", JNumber 1); ("10", JNumber 1);
                           ("9", JNumber 1); ("007", JNumber 1)])
  = ["9"; "10"; "b"; "007"].
Proof. reflexivity. Qed.

Lemma codeCompare_consistent : consistent Sample.codeCompare.
Proof.
  unfold consistent, Sample.codeCompare. split.
  - intros a b. pose proof (String_as_OT.cmp_antisym b a) as E.
    unfold String_as_OT.cmp in E. rewrite E.
    destruct (String.compare a b); simpl; lia.
  - intros a b c Hab Hbc.
    destruct (String.compare a b) eqn:Eab; [| |lia].
    + apply String_as_OT.cmp_eq in Eab. now subst.
    + destruct (String.compare b c) eqn:Ebc; [| |lia].
      * apply String_as_OT.cmp_eq in Ebc. subst. rewrite Eab. lia.
      * apply String_as_OT.cmp_lt in Eab, Ebc.
        pose proof (String_as_OT.lt_trans _ _ _ Eab Ebc) as Hac.
        apply String_as_OT.cmp_lt in Hac. unfold String_as_OT.cmp in Hac.
        rewrite Hac. lia.
Qed.

(** The query [goede hoop] matches the first and the third record of
    [Sample.duplicates]; the search sets the bounds of the third. *)
Lemma handleSearch_last_match_wins_witness :
  features (currentLocations Sample.duplicates
              (setSearchQuery "goede hoop" initialState))
    = Some [Sample.goedeHoop; Sample.nieuwland; Sample.goedeHoopAnnex] /\
  filter (nameMatches "goede hoop")
         [Sample.goedeHoop; Sample.nieuwland; Sample.goedeHoopAnnex]
    = ([Sample.goedeHoop] ++ [Sample.goedeHoopAnnex])%list /\
  handleSearch Sample.duplicates (setSearchQuery "goede hoop" initialState)
    = Ok (setSelectedBounds (Some (getBounds Sample.goedeHoopAnnex))
            (setSearchQuery "goede hoop" initialState), []).
Proof.
  split; [reflexivity|]. split; [reflexivity|].
  apply (handleSearch_last_match_wins Sample.duplicates
           (setSearchQuery "goede hoop" initialState)
           [Sample.goedeHoop; Sample.nieuwland; Sample.goedeHoopAnnex]
           [Sample.goedeHoop] Sample.goedeHoopAnnex); reflexivity.
Defined.

(** With two matches the bounds set are not those of
    the first matching record. *)
Lemma handleSearch_first_match_counterexample :
  filter (nameMatches "goede hoop")
         [Sample.goedeHoop; Sample.nieuwland; Sample.goedeHoopAnnex]
    = [Sample.goedeHoop; Sample.goedeHoopAnnex] /\
  exists s',
    handleSearch Sample.duplicates (setSearchQuery "goede hoop" initialState)
      = Ok (s', []) /\
    selectedBounds s' <> Some (getBounds Sample.goedeHoop).
Proof.
  split; [reflexivity|].
  eexists. split; [reflexivity|]. discriminate.
Qed.


(** Five hours behind UTC. *)
Lemma filteredLocations_year_is_local_witness :
  -1440 < -300 < 1440 /\
  @filteredLocations (Sample.hostAt (-300))
    (mkCollection "FeatureCollection" (Some [Sample.nieuwjaar])) 1700 true
  = mkCollection "FeatureCollection" (Some [Sample.nieuwjaar]).
Proof.
  split; [lia|].
  destruct (filteredLocations_year_is_local (-300)) as (_ & _ & Hkept);
    [lia|exact Hkept].
Defined.

(** [Oosthuizen] is dated 1750; with the filter at 1700 the search for
    it ends in the notice. *)
Lemma handleSearch_searches_filtered_only_witness :
  handleSearch Sample.store
    (setSearchQuery "Oosthuizen"
       (setYearFilterEnabled true (setYear 1700 initialState)))
  = Ok (setSearchQuery "Oosthuizen"
          (setYearFilterEnabled true (setYear 1700 initialState)),
        [alert "Region not found!"]).
Proof.
  apply (handleSearch_searches_filtered_only "FeatureCollection"
           [Sample.goedeHoop; Sample.nieuwland; Sample.oosthuizen]
           (setSearchQuery "Oosthuizen"
              (setYearFilterEnabled true (setYear 1700 initialState)))).
  intros f [<- | [<- | [<- | []]]] Hmatch; try discriminate Hmatch.
  reflexivity.
Defined.



(** A search for [Goede Hoop] succeeded; the search for [Atlantis] that
    follows keeps the bounds it set. *)
Lemma selectedBounds_changed_only_by_found_search_witness :
  handle Sample.store Sample.searched Submit
    = Ok (Sample.searched, [alert "Region not found!"]) /\
  selectedBounds Sample.searched = Some (getBounds Sample.goedeHoop) /\
  (Submit = Submit ->
   (forall fs f,
      features (currentLocations Sample.store Sample.searched) = Some fs ->
      In f fs -> nameMatches (searchQuery Sample.searched) f = false) ->
   Sample.searched = Sample.searched /\
   [alert "Region not found!"] = [alert "Region not found!"]) /\
  (selectedBounds Sample.searched <> selectedBounds Sample.searched ->
   Submit = Submit /\ [alert "Region not found!"] = [] /\
   exists fs f,
     features (currentLocations Sample.store Sample.searched) = Some fs /\
     In f fs /\ nameMatches (searchQuery Sample.searched) f = true /\
     selectedBounds Sample.searched = Some (getBounds f)) /\
  ((Submit = YearHeaderClick \/ exists value, Submit = YearChange value) ->
   selectedBounds Sample.searched = selectedBounds Sample.searched /\
   [alert "Region not found!"] = []).
Proof.
  split; [reflexivity|]. split; [reflexivity|].
  apply (selectedBounds_changed_only_by_found_search Sample.store
           Sample.searched Sample.searched Submit
           [alert "Region not found!"]).
  reflexivity.
Defined.

(** The list is open and [Van Riebeeck] highlighted: a click on the header
    closes the list and clears the highlight, and the click after it opens
    the list with nothing highlighted. *)
Lemma owners_header_click_highlight_witness :
  showOwners Sample.picked = true /\
  highlightedOwner Sample.picked = Some "Van Riebeeck" /\
  handle Sample.store Sample.picked OwnersHeaderClick
    = Ok (Sample.closed, []) /\
  showOwners Sample.closed = false /\
  highlightedOwner Sample.closed = None /\
  exists s'',
    handle Sample.store Sample.closed OwnersHeaderClick = Ok (s'', []) /\
    showOwners s'' = true /\ highlightedOwner s'' = None.
Proof.
  split; [reflexivity|]. split; [reflexivity|].
  destruct (owners_header_click_highlight Sample.store Sample.picked)
    as (s' & Hstep & Hshown & _).
  injection Hstep as <-.
  destruct (Hshown eq_refl) as (Hhidden & Hnone & Hagain).
  split; [reflexivity|]. split; [exact Hhidden|]. split; [exact Hnone|].
  exact Hagain.
Defined.

(** Two records of one owner that differ in name, date and place. *)
Lemma style_depends_on_highlight_only_witness :
  (truthy (Some "Van Riebeeck") = true ->
   (prop owner Sample.goedeHoop = Some "Van Riebeeck" <->
    prop owner Sample.nieuwland = Some "Van Riebeeck")) /\
  style (Some "Van Riebeeck") Sample.goedeHoop
  = style (Some "Van Riebeeck") Sample.nieuwland.
Proof.
  split; [intros _; split; reflexivity|].
  apply (style_depends_on_highlight_only (Some "Van Riebeeck")
           Sample.goedeHoop Sample.nieuwland).
  intros _. split; reflexivity.
Defined.

(** ** The further properties on the sample host *)

Lemma opened_reachable : reachable Sample.store Sample.opened.
Proof.
  apply reachable_step
    with (s := initialState) (e := OwnersHeaderClick) (notices := []);
    [constructor|exact I|reflexivity].
Defined.

Lemma opened_renders_owner :
  rendered Sample.store Sample.opened (OwnerClick "Van Riebeeck").
Proof.
  split; [reflexivity|].
  exists [mkOwnerCount "Van Riebeeck" (JNumber 2)].
  split; [reflexivity|]. now left.
Defined.

(** The widths of [Paradijs] and [Nooitgedacht] differ as real numbers
    (in units of [2 ^ -56] the second is the smaller) and are one binary64
    number: ranked by size the two keep the order of the store. *)
Example rounded_widths_tie :
  let width f := aligned (-56) (getEast (getBounds f))
                 - aligned (-56) (getWest (getBounds f)) in
  width Sample.nooitgedacht < width Sample.paradijs /\
  area (toFarm Sample.paradijs) = S754_finite false 5404319552844596 (-54) /\
  area (toFarm Sample.nooitgedacht) = S754_finite false 5404319552844596 (-54) /\
  bind (uniqueFarms (mkCollection "FeatureCollection"
                       (Some [Sample.paradijs; Sample.nooitgedacht])) true)
       (fun farms => Ok (map farm_name farms))
  = Ok [Some "Paradijs"; Some "Nooitgedacht"].
Proof. vm_compute. repeat split. Qed.


Lemma filteredLocations_narrows_witness :
  1657 <= 1700 /\
  filteredLocations (filteredLocations Sample.store 1700 true) 1657 true
  = filteredLocations Sample.store 1657 true.
Proof.
  split; [lia|].
  apply (filteredLocations_narrows Sample.store 1657 1700). lia.
Defined.

Lemma geoJsonKey_decides_collection_witness :
  geoJsonKey initialState = geoJsonKey (setYear 1700 initialState) /\
  currentLocations Sample.store initialState
  = currentLocations Sample.store (setYear 1700 initialState).
Proof.
  split; [reflexivity|].
  apply (geoJsonKey_decides_collection Sample.store initialState
           (setYear 1700 initialState)).
  reflexivity.
Defined.

Lemma handle_keeps_collection_witness :
  handle Sample.store Sample.at1700 (RankBySizeChange false)
    = Ok (setRankBySize false Sample.at1700, []) /\
  RankBySizeChange false <> YearHeaderClick /\
  (forall value, RankBySizeChange false <> YearChange value) /\
  currentLocations Sample.store (setRankBySize false Sample.at1700)
  = currentLocations Sample.store Sample.at1700.
Proof.
  split; [reflexivity|]. split; [discriminate|]. split; [discriminate|].
  apply (handle_keeps_collection Sample.store Sample.at1700
           (setRankBySize false Sample.at1700) (RankBySizeChange false) []);
    [reflexivity|discriminate|discriminate].
Defined.

Lemma missing_features_raise_witness :
  features Sample.noFeatures = None /\
  uniqueOwners (currentLocations Sample.noFeatures initialState) = TypeError /\
  handle Sample.noFeatures initialState Submit = TypeError.
Proof.
  split; [reflexivity|].
  destruct (missing_features_raise Sample.noFeatures initialState true eq_refl)
    as (_ & Howners & _ & Hsearch).
  now split.
Defined.

Lemma empty_store_witness :
  features Sample.noRecords = Some [] /\
  handle Sample.noRecords Sample.searched Submit
  = Ok (Sample.searched, [alert "Region not found!"]).
Proof.
  split; [reflexivity|].
  apply (empty_store Sample.noRecords Sample.searched true). reflexivity.
Defined.

Lemma owners_header_double_click_witness :
  reachable Sample.store Sample.opened /\
  exists s1,
    handle Sample.store Sample.opened OwnersHeaderClick = Ok (s1, []) /\
    handle Sample.store s1 OwnersHeaderClick
      = Ok (setHighlightedOwner None Sample.opened, []) /\
    (showOwners Sample.opened = false ->
     setHighlightedOwner None Sample.opened = Sample.opened).
Proof.
  split; [exact opened_reachable|].
  apply (owners_header_double_click Sample.store Sample.opened
           opened_reachable).
Defined.

Lemma search_twice_witness :
  handle Sample.store (setSearchQuery "Goede Hoop" initialState) Submit
    = Ok (Sample.found, []) /\
  handle Sample.store Sample.found Submit = Ok (Sample.found, []).
Proof.
  split; [reflexivity|].
  apply (search_twice Sample.store
           (setSearchQuery "Goede Hoop" initialState) Sample.found []).
  reflexivity.
Defined.

Lemma typed_reachable : reachable Sample.store Sample.typed.
Proof.
  apply reachable_step
    with (s := initialState) (e := InputChange "Goede Hoop") (notices := []);
    [constructor|exact I|reflexivity].
Defined.

Lemma typed_unfound : unfound Sample.store Sample.typed.
Proof.
  apply unfound_step
    with (s := initialState) (e := InputChange "Goede Hoop") (notices := []);
    [constructor|exact I|reflexivity|discriminate].
Defined.

(** [Goede Hoop] is typed in: nothing is asked of the map; the search
    that follows finds the record and asks for its bounds. *)
Lemma map_fits_store_records_witness :
  reachable Sample.store Sample.typed /\
  unfound Sample.store Sample.typed /\
  mapCalls Sample.typed = [] /\
  handle Sample.store Sample.typed Submit = Ok (Sample.found, []) /\
  exists fs f,
    features (currentLocations Sample.store Sample.typed) = Some fs /\
    In f fs /\ nameMatches (searchQuery Sample.typed) f = true /\
    mapCalls Sample.found = [fitBounds (getBounds f) (50, 50)].
Proof.
  split; [exact typed_reachable|]. split; [exact typed_unfound|].
  destruct (map_fits_store_records Sample.store Sample.typed typed_reachable)
    as (Hbefore & Hfound & _).
  split; [exact (Hbefore typed_unfound)|]. split; [reflexivity|].
  apply Hfound. reflexivity.
Defined.

Lemma part000_simulates_witness :
  handle Sample.store initialState YearHeaderClick
    = Ok (setYearFilterEnabled true initialState, []) /\
  Part000.handle Sample.store (toPart000 initialState)
    (Part000.FilterChange true)
  = Ok (toPart000 (setYearFilterEnabled true initialState), []).
Proof.
  split; [reflexivity|].
  apply (part000_simulates Sample.store initialState
           (setYearFilterEnabled true initialState) YearHeaderClick []).
  reflexivity.
Defined.

Lemma uniqueOwners_sorted_witness :
  consistent localeCompare /\
  exists entries,
    uniqueOwners Sample.store = Ok entries /\
    StronglySorted ownersAscending entries.
Proof.
  split; [exact codeCompare_consistent|].
  apply (@uniqueOwners_sorted Sample.host "FeatureCollection"
           [Sample.goedeHoop; Sample.nieuwland; Sample.oosthuizen]
           codeCompare_consistent).
Defined.

Lemma uniqueOwners_of_plain_owners_witness :
  consistent localeCompare /\
  (forall f k,
     In f [Sample.goedeHoop; Sample.nieuwland; Sample.oosthuizen] ->
     prop owner f = Some k -> plain k) /\
  exists entries,
    uniqueOwners Sample.store = Ok entries /\
    StronglySorted ownersAscending entries /\
    countSum entries
    = Some (Z.of_nat (List.length
              (filter owned
                 [Sample.goedeHoop; Sample.nieuwland; Sample.oosthuizen]))).
Proof.
  assert (Hplain : forall f k,
            In f [Sample.goedeHoop; Sample.nieuwland; Sample.oosthuizen] ->
            prop owner f = Some k -> plain k).
  { intros f k [<- | [<- | [<- | []]]]; intros [= <-]; reflexivity. }
  split; [exact codeCompare_consistent|]. split; [exact Hplain|].
  destruct (@uniqueOwners_of_plain_owners Sample.host "FeatureCollection"
              [Sample.goedeHoop; Sample.nieuwland; Sample.oosthuizen]
              codeCompare_consistent Hplain)
    as (entries & Hentries & Hsorted & _ & _ & _ & Hsum).
  exists entries. auto.
Defined.

Lemma owner_click_highlights_witness :
  rendered Sample.store Sample.opened (OwnerClick "Van Riebeeck") /\
  handle Sample.store Sample.opened (OwnerClick "Van Riebeeck")
    = Ok (setHighlightedOwner (Some "Van Riebeeck") Sample.opened, []) /\
  (forall f, highlighted (style (Some "Van Riebeeck") f) <->
             prop owner f = Some "Van Riebeeck").
Proof.
  split; [exact opened_renders_owner|]. split; [reflexivity|].
  apply (owner_click_highlights Sample.store Sample.opened
           (setHighlightedOwner (Some "Van Riebeeck") Sample.opened)
           "Van Riebeeck" [] opened_renders_owner eq_refl).
Defined.

Lemma bold_item_matches_map_witness :
  features Sample.store
    = Some [Sample.goedeHoop; Sample.nieuwland; Sample.oosthuizen] /\
  uniqueOwners Sample.store = Ok [mkOwnerCount "Van Riebeeck" (JNumber 2)] /\
  (fontWeight (ownerItemStyle (Some "Van Riebeeck")
                 (mkOwnerCount "Van Riebeeck" (JNumber 2))) = "bold" <->
   highlighted (style (Some "Van Riebeeck") Sample.nieuwland)).
Proof.
  split; [reflexivity|]. split; [reflexivity|].
  apply (bold_item_matches_map Sample.store
           [Sample.goedeHoop; Sample.nieuwland; Sample.oosthuizen]
           [mkOwnerCount "Van Riebeeck" (JNumber 2)]
           (Some "Van Riebeeck") (mkOwnerCount "Van Riebeeck" (JNumber 2))
           Sample.nieuwland);
    [reflexivity|reflexivity|now left|reflexivity].
Defined.

Lemma equal_names_keep_store_order_witness :
  consistent localeCompare /\
  exists farms,
    uniqueFarms Sample.store false = Ok farms /\
    filter (sameName "Nieuwland") farms
    = filter (sameName "Nieuwland")
        (map toFarm
           (filter named
              [Sample.goedeHoop; Sample.nieuwland; Sample.oosthuizen])).
Proof.
  split; [exact codeCompare_consistent|].
  apply (@equal_names_keep_store_order Sample.host "FeatureCollection"
           [Sample.goedeHoop; Sample.nieuwland; Sample.oosthuizen]
           "Nieuwland" codeCompare_consistent).
Defined.

Lemma empty_name_found_by_empty_query_witness :
  features (currentLocations Sample.withNameless initialState)
    = Some [Sample.goedeHoop; Sample.nameless] /\
  In Sample.nameless [Sample.goedeHoop; Sample.nameless] /\
  prop name Sample.nameless = Some "" /\
  searchQuery initialState = "" /\
  (exists s', handle Sample.withNameless initialState Submit = Ok (s', []) /\
              selectedBounds s' <> None).
Proof.
  split; [reflexivity|]. split; [right; now left|].
  split; [reflexivity|]. split; [reflexivity|].
  apply (empty_name_found_by_empty_query Sample.withNameless initialState
           [Sample.goedeHoop; Sample.nameless] Sample.nameless);
    [reflexivity|right; now left|reflexivity|reflexivity].
Defined.

Lemma filtered_popups_show_date_witness :
  features (filteredLocations Sample.store 1700 true)
    = Some [Sample.goedeHoop; Sample.nieuwland] /\
  In Sample.goedeHoop [Sample.goedeHoop; Sample.nieuwland] /\
  popup Sample.goedeHoop
    = Some "<b>Goede Hoop</b><br/>Owner: Van Riebeeck<br/>Date: 1657-04-02" /\
  exists d before,
    prop date Sample.goedeHoop = Some d /\ d <> "" /\
    "<b>Goede Hoop</b><br/>Owner: Van Riebeeck<br/>Date: 1657-04-02"
    = before ++ "Date: " ++ d.
Proof.
  split; [reflexivity|]. split; [now left|]. split; [reflexivity|].
  apply (filtered_popups_show_date "FeatureCollection"
           [Sample.goedeHoop; Sample.nieuwland; Sample.oosthuizen]
           [Sample.goedeHoop; Sample.nieuwland] 1700 Sample.goedeHoop);
    [reflexivity|now left|reflexivity].
Defined.
